(** * Platform-adaptive visual tokens: detection, visual properties, navigation tokens

    A shallow embedding of
      - src/ui/platform/detection.js
      - src/ui/platform/visualProperties.js
      - src/ui/navigation/theme/platform.js
      - src/ui/navigation/theme/tokens.js (the spacing group)

    JavaScript numbers are IEEE 754 binary64 values; they are modelled by the
    primitive floats of the kernel, so that [0.5 + 0.1] below is the very
    addition the engine performs.  Strings are [string]; a property that may
    be missing from an object is an [option]. *)

From Stdlib Require Import Bool ZArith List String Ascii Lia.
From Stdlib Require Import Floats Uint63 DecimalString.
Import ListNotations.

Open Scope string_scope.
Open Scope float_scope.

(* Decimal literals denote the nearest binary64 value, as in the sources. *)
Set Warnings "-inexact-float".

(* ================================================================== *)
(** ** The JavaScript fragment the sources rely on *)

(** [ToBoolean]: what an [if], a [?:] or a [||] does to its operand. *)
Class Truthy (A : Type) := truthy : A -> bool.

#[export] Instance Truthy_bool : Truthy bool := fun b => b.

(** A number is falsy when it is [+0], [-0] or [NaN]. *)
#[export] Instance Truthy_number : Truthy float :=
  fun x => negb ((x =? 0) || is_nan x).

(** A string is falsy when it is empty. *)
#[export] Instance Truthy_string : Truthy string :=
  fun s => match s with EmptyString => false | String _ _ => true end.

(** [undefined] is falsy; a present value is as truthy as it is itself. *)
#[export] Instance Truthy_optional {A} `{Truthy A} : Truthy (option A) :=
  fun o => match o with Some a => truthy a | None => false end.

(** A function is an object, and every object is truthy: the operand is
    not called. *)
#[export] Instance Truthy_function {A B} : Truthy (A -> B) := fun _ => true.

(** [x || d] where [x] may be [undefined] and [d] is a plain value. *)
Definition or_else {A} `{Truthy A} (x : option A) (d : A) : A :=
  match x with
  | Some a => if truthy a then a else d
  | None => d
  end.

Notation "x '|||' d" := (or_else x d) (at level 50, left associativity).

Definition is_pos_zero (x : float) : bool :=
  match classify x with PZero => true | _ => false end.

Definition is_neg_zero (x : float) : bool :=
  match classify x with NZero => true | _ => false end.

(** [a >= b] and [a > b] on numbers. *)
Definition geb (a b : float) : bool := b <=? a.
Definition gtb (a b : float) : bool := b <? a.

Notation "a >=? b" := (geb a b) (at level 70, no associativity) : float_scope.
Notation "a >? b" := (gtb a b) (at level 70, no associativity) : float_scope.

(** The [Math] object: [min], [max] and [round] are fully determined by
    ECMAScript and are defined here; [log10] and [pow] are
    implementation-approximated and are taken from the host where they are
    used. *)
Module Math.

(** [Math.max(a, b)]: [NaN] if either is [NaN]; [+0] is larger than [-0]. *)
Definition max (a b : float) : float :=
  if is_nan a || is_nan b then nan
  else if is_neg_zero a && is_pos_zero b then b
  else if a <? b then b
  else a.

(** [Math.min(a, b)]: [NaN] if either is [NaN]; [-0] is smaller than [+0]. *)
Definition min (a b : float) : float :=
  if is_nan a || is_nan b then nan
  else if is_pos_zero a && is_neg_zero b then b
  else if b <? a then b
  else a.

Definition of_Z (n : Z) : float :=
  if (n <? 0)%Z then - of_uint63 (Uint63.of_Z (- n)) else of_uint63 (Uint63.of_Z n).

(** [Math.round(x)]: the integer nearest to [x], ties towards [+Infinity],
    that is [floor(x + 1/2)] taken exactly; zeros, infinities and [NaN]
    are returned as they are, and a result of zero keeps the sign of [x]. *)
Definition round (x : float) : float :=
  match Prim2SF x with
  | S754_finite s m e =>
      if (0 <=? e)%Z then x
      else
        let k := (- e)%Z in
        let twice := if s then (- 2 * Zpos m)%Z else (2 * Zpos m)%Z in
        let n := ((twice + 2 ^ k) / 2 ^ (k + 1))%Z in
        if (n =? 0)%Z then (if s then neg_zero else zero) else of_Z n
  | _ => x
  end.

End Math.

(** An own property of an object literal: missing, present with the value
    [undefined], or present with a number. *)
Inductive property : Type :=
| Absent
| Undefined
| Number (x : float).

(* ================================================================== *)
(** ** The React Native runtime, as read once at start-up *)

(** [Platform.OS]: ['ios'], ['android'], or any other string (web, ...). *)
Inductive PlatformOS : Type := ios | android | other_os.

Record Runtime : Type := {
  Platform_OS : PlatformOS;
  Platform_isPad : bool;                     (* Platform.isPad *)
  WINDOW_WIDTH : float;                      (* Dimensions.get('window').width *)
  WINDOW_HEIGHT : float;                     (* Dimensions.get('window').height *)
  PIXEL_RATIO : float;                       (* PixelRatio.get() *)
  StatusBar_currentHeight : option float     (* StatusBar.currentHeight *)
}.

Definition IS_IOS (rt : Runtime) : bool :=
  match Platform_OS rt with ios => true | _ => false end.

Definition IS_ANDROID (rt : Runtime) : bool :=
  match Platform_OS rt with android => true | _ => false end.

(* ================================================================== *)
(** ** src/ui/platform/detection.js

    Every capability is a function of no argument reading the constants
    cached at load time; it takes [tt] here, so that a reference to the
    function and a call of it stay distinct. *)

Module Detection.
Section Detection.

Variable rt : Runtime.

Let W := WINDOW_WIDTH rt.
Let H := WINDOW_HEIGHT rt.

Definition isIPhone12OrNewer (_ : unit) : bool :=
  if negb (IS_IOS rt) then false
  else if Math.min W H <? 375 then false
  else ((H / W >? 2.1) || (W / H >? 2.1)) && (H >=? 812).

Definition hasNotchOrDynamicIsland (_ : unit) : bool :=
  if negb (IS_IOS rt) then false
  else (H >=? 812) && negb (Platform_isPad rt).

Definition hasDynamicIsland (_ : unit) : bool :=
  if negb (IS_IOS rt) then false
  else if Platform_isPad rt then false
  else
    let portraitWidth := Math.min W H in
    ((portraitWidth =? 393) || (portraitWidth =? 430))
    && hasNotchOrDynamicIsland tt.

Definition hasFaceID (_ : unit) : bool :=
  if negb (IS_IOS rt) then false
  else if Platform_isPad rt then Math.max W H >=? 1024
  else hasNotchOrDynamicIsland tt.

Definition hasHomeIndicator (_ : unit) : bool :=
  if negb (IS_IOS rt) then false
  else hasFaceID tt.

Definition getStatusBarHeight (_ : unit) : float :=
  if IS_IOS rt then
    if Platform_isPad rt then 24
    else if hasNotchOrDynamicIsland tt then 47 else 20
  else 24.

Definition getBottomInset (_ : unit) : float :=
  if IS_IOS rt then
    if hasHomeIndicator tt then 34 else 0
  else 0.

(** Neither branch of the guarded block can throw, so the handler is
    unreachable. *)
Definition supportsBlurEffects (_ : unit) : bool :=
  if IS_IOS rt then true else false.

Definition supportsHaptics (_ : unit) : bool := IS_IOS rt.

Definition getMaxBlurIntensity (_ : unit) : float :=
  if IS_IOS rt then 100
  else if IS_ANDROID rt then
    if PIXEL_RATIO rt >=? 3 then 80
    else if PIXEL_RATIO rt >=? 2.5 then 60
    else if PIXEL_RATIO rt >=? 2 then 40
    else 20
  else 40.

Record Insets : Type := {
  top : float; bottom : float; left : float; right : float
}.

Definition getSafeAreaInsets (_ : unit) : Insets :=
  {| top := getStatusBarHeight tt;
     bottom := getBottomInset tt;
     left := 0;
     right := 0 |}.

End Detection.

(** The default export.  The two OS flags are exported as values, every
    capability as a function reference. *)
Record Exports : Type := {
  isIOS : bool;
  isAndroid : bool;
  export_isIPhone12OrNewer : unit -> bool;
  export_hasNotchOrDynamicIsland : unit -> bool;
  export_hasDynamicIsland : unit -> bool;
  export_hasFaceID : unit -> bool;
  export_hasHomeIndicator : unit -> bool;
  export_getStatusBarHeight : unit -> float;
  export_getBottomInset : unit -> float;
  export_supportsBlurEffects : unit -> bool;
  export_supportsHaptics : unit -> bool;
  export_getMaxBlurIntensity : unit -> float
}.

Definition default (rt : Runtime) : Exports :=
  {| isIOS := IS_IOS rt;
     isAndroid := IS_ANDROID rt;
     export_isIPhone12OrNewer := isIPhone12OrNewer rt;
     export_hasNotchOrDynamicIsland := hasNotchOrDynamicIsland rt;
     export_hasDynamicIsland := hasDynamicIsland rt;
     export_hasFaceID := hasFaceID rt;
     export_hasHomeIndicator := hasHomeIndicator rt;
     export_getStatusBarHeight := getStatusBarHeight rt;
     export_getBottomInset := getBottomInset rt;
     export_supportsBlurEffects := supportsBlurEffects rt;
     export_supportsHaptics := supportsHaptics rt;
     export_getMaxBlurIntensity := getMaxBlurIntensity rt |}.

End Detection.

(* ================================================================== *)
(** ** src/ui/platform/visualProperties.js *)

(** What the engine supplies and ECMAScript leaves to the implementation
    ([Math.log10], [Math.pow]) or what lies outside the arithmetic modelled
    here (the decimal rendering of a number inside a template literal). *)
Record Engine : Type := {
  Math_log10 : float -> float;
  Math_pow : float -> float -> float;
  Number_toString : float -> string
}.

(** A parameter with a default value: the default replaces [undefined]. *)
Definition default_param {A} (d : A) (arg : option A) : A :=
  match arg with Some a => a | None => d end.

(** [a || d] on plain values. *)
Definition or_value {A} `{Truthy A} (a d : A) : A := if truthy a then a else d.

(** [a >= b] on two strings compares them code unit by code unit. *)
Definition string_geb (a b : string) : bool := negb (String.ltb a b).

Module VisualProperties.

Record SizeSpec : Type := { width : option float; height : option float }.

Record Offset : Type := { offset_width : float; offset_height : float }.

Record Shadow : Type := {
  shadowColor : string;
  shadowOffset : Offset;
  shadowOpacity : float;
  shadowRadius : float;
  elevation : property
}.

Record Typography : Type := {
  fontSize : float;
  fontWeight : string;
  letterSpacing : float;
  lineHeight : float;
  fontFamily : option string
}.

Record RGB : Type := { r : N; g : N; b : N }.

(** *** Hexadecimal colours *)

Definition hex_digit (c : ascii) : option N :=
  let n := N_of_ascii c in
  if (48 <=? n)%N && (n <=? 57)%N then Some (n - 48)%N          (* 0-9 *)
  else if (97 <=? n)%N && (n <=? 102)%N then Some (n - 87)%N    (* a-f *)
  else if (65 <=? n)%N && (n <=? 70)%N then Some (n - 55)%N     (* A-F, by the i flag *)
  else None.

(** The character class [[a-f\d]] under the [i] flag. *)
Definition is_hex (c : ascii) : bool :=
  match hex_digit c with Some _ => true | None => false end.

(** The prefix [^#?] of both patterns: what is left to match once the
    optional ['#'] is consumed.  A ['#'] is not a hexadecimal digit, so
    leaving it in place can never lead to a match. *)
Definition skip_hash (s : string) : string :=
  match s with
  | String "#"%char rest => rest
  | _ => s
  end.

(** [shorthandRegex], [/^#?([a-f\d])([a-f\d])([a-f\d])$/i]: the three
    captures when the whole string matches. *)
Definition shorthandRegex (s : string) : option (ascii * ascii * ascii) :=
  match skip_hash s with
  | String c1 (String c2 (String c3 EmptyString)) =>
      if is_hex c1 && is_hex c2 && is_hex c3 then Some (c1, c2, c3) else None
  | _ => None
  end.

(** [/^#?([a-f\d]{2})([a-f\d]{2})([a-f\d]{2})$/i.exec]: the three
    two-character captures, or [None] for [null]. *)
Definition fullRegex_exec (s : string) : option (string * string * string) :=
  match skip_hash s with
  | String c1 (String c2 (String c3 (String c4 (String c5 (String c6 EmptyString))))) =>
      if is_hex c1 && is_hex c2 && is_hex c3 && is_hex c4 && is_hex c5 && is_hex c6
      then Some (String c1 (String c2 EmptyString),
                 String c3 (String c4 EmptyString),
                 String c5 (String c6 EmptyString))
      else None
  | _ => None
  end.

(** [parseInt(s, 16)] on a run of hexadecimal digits. *)
Definition parseInt16 (s : string) : N :=
  fold_left
    (fun acc c => match hex_digit c with
                  | Some d => (16 * acc + d)%N
                  | None => acc
                  end)
    (list_ascii_of_string s) 0%N.

Definition hexToRgb (hex : string) : RGB :=
  (* the pattern is anchored at both ends, so a match replaces the whole
     string by the six doubled digits *)
  let fullHex :=
    match shorthandRegex hex with
    | Some (cr, cg, cb) =>
        String cr (String cr (String cg (String cg (String cb (String cb EmptyString)))))
    | None => hex
    end in
  match fullRegex_exec fullHex with
  | Some (r1, g1, b1) =>
      {| r := parseInt16 r1; g := parseInt16 g1; b := parseInt16 b1 |}
  | None => {| r := 255; g := 255; b := 255 |}
  end.

(** A small non-negative integer inside a template literal. *)
Definition decimal (n : N) : string := NilZero.string_of_uint (N.to_uint n).

(** *** Lookup tables *)

Definition fallbackMap (variant : string) : option float :=
  if String.eqb variant "small" then Some 4
  else if String.eqb variant "standard" then Some 8
  else if String.eqb variant "large" then Some 12
  else if String.eqb variant "pill" then Some 20
  else None.

Definition weightMap (weight : string) : option string :=
  if String.eqb weight "normal" then Some "400"
  else if String.eqb weight "regular" then Some "400"
  else if String.eqb weight "medium" then Some "500"
  else if String.eqb weight "semibold" then Some "600"
  else if String.eqb weight "bold" then Some "700"
  else None.


(** The [switch] of [getCornerRadius]: either the function returns at
    once with the pill radius, or [(baseRadius, scaleFactor)] are set. *)
Inductive Strategy : Type :=
| ReturnPill
| Scaled (baseRadius scaleFactor : float).

Definition strategy (variant : string) : Strategy :=
  if String.eqb variant "small" then Scaled 4 0.08
  else if String.eqb variant "large" then Scaled 16 0.12
  else if String.eqb variant "pill" then ReturnPill
  else Scaled 10 0.1.

(** [Math.max(0, Math.min(24, elevation))] *)
Definition normalizedElevation (elevation : float) : float :=
  Math.max 0 (Math.min 24 elevation).

(** [Math.max(0, Math.min(1, opacity))] *)
Definition clampedOpacity (opacity : float) : float :=
  Math.max 0 (Math.min 1 opacity).

Section VisualProperties.

Variable engine : Engine.
Variable rt : Runtime.

Let platformDetection := Detection.default rt.

Definition baseSize (size : SizeSpec) : float :=
  Math.min (width size ||| 0) (height size ||| 0).

(** The platform-specific adjustment of [scaleFactor]. *)
Definition platformAdjusted (scaleFactor : float) : float :=
  if truthy (Detection.isIOS platformDetection) then
    if truthy (Detection.export_isIPhone12OrNewer platformDetection)
    then scaleFactor * 1.2
    else scaleFactor
  else if truthy (Detection.isAndroid platformDetection) then
    scaleFactor * 0.75
  else scaleFactor.

Definition getCornerRadius (size : SizeSpec) (variant : option string) : float :=
  let variant := default_param "standard" variant in
  let baseSize := baseSize size in
  if baseSize =? 0 then fallbackMap variant ||| 8
  else
    match strategy variant with
    | ReturnPill => baseSize / 2
    | Scaled baseRadius scaleFactor =>
        let scaleFactor := platformAdjusted scaleFactor in
        let computedRadius :=
          baseRadius
          + Math_log10 engine (Math.max 100 baseSize) * baseSize * scaleFactor * 0.05 in
        let minRadius := baseRadius / 2 in
        let maxRadius := baseSize * 0.25 in
        Math.max minRadius (Math.min computedRadius maxRadius)
    end.

Definition getShadowParams (elevation : option float) : Shadow :=
  let elevation := default_param 1 elevation in
  let normalizedElevation := normalizedElevation elevation in
  let shadow :=
    {| shadowColor := "#000";
       shadowOffset := {| offset_width := 0; offset_height := 0 |};
       shadowOpacity := 0;
       shadowRadius := 0;
       elevation :=
         if truthy (Detection.isAndroid platformDetection)
         then Number normalizedElevation else Undefined |} in
  if normalizedElevation =? 0 then shadow
  else if truthy (Detection.isIOS platformDetection) then
    let shadowRadius := Math_pow engine normalizedElevation 0.7 * 0.8 in
    let offsetFactor := Math.min (normalizedElevation / 8) 1 in
    let shadowOffset :=
      {| offset_width := 0; offset_height := normalizedElevation * offsetFactor |} in
    let shadowOpacity := 0.18 - (normalizedElevation / 100) in
    {| shadowColor := "#000";
       shadowOffset := shadowOffset;
       shadowOpacity := shadowOpacity;
       shadowRadius := shadowRadius;
       elevation := Absent |}
  else shadow.

Definition getOpticalTypography (fontSize : float) (weight : option string) : Typography :=
  let weight := default_param "normal" weight in
  let numericWeight := or_value (weightMap weight ||| weight) "400" in
  let tracking :=
    if fontSize <? 14 then 0.5
    else if fontSize <? 20 then 0.2
    else if fontSize <? 34 then 0
    else -0.5 in
  let tracking :=
    if string_geb numericWeight "600" then tracking + 0.1 else tracking in
  let lineHeight :=
    if fontSize <? 14 then fontSize * 1.3
    else if fontSize <? 20 then fontSize * 1.25
    else if fontSize <? 34 then fontSize * 1.2
    else fontSize * 1.1 in
  let letterSpacing := tracking in
  {| fontSize := fontSize;
     fontWeight := numericWeight;
     letterSpacing := letterSpacing;
     lineHeight := Math.round lineHeight;
     fontFamily :=
       match Platform_OS rt with
       | android => Some "Roboto"
       | _ => None
       end |}.


Definition getBackdropColor (baseColor : option string) (opacity : option float) : string :=
  let baseColor := default_param "#FFFFFF" baseColor in
  let opacity := default_param 0.8 opacity in
  let clampedOpacity := clampedOpacity opacity in
  let rgb := hexToRgb baseColor in
  "rgba(" ++ decimal (r rgb) ++ ", " ++ decimal (g rgb) ++ ", " ++ decimal (b rgb)
    ++ ", " ++ Number_toString engine clampedOpacity ++ ")".

End VisualProperties.
End VisualProperties.

(* ================================================================== *)
(** ** src/ui/navigation/theme/platform.js

    The module keeps its own copy of the window size and its own notch
    test.  [isTablet], the React hook and the shared-element probe play no
    part in the spacing tokens and are left out. *)

Module NavPlatform.

(** The argument of [select]: each key may be missing. *)
Record Config : Type := {
  cfg_ios : option float;
  cfg_android : option float;
  cfg_default : option float;
  cfg_iosNotch : option float
}.

(** [a || b] where both may be [undefined]. *)
Definition or_optional (a b : option float) : option float :=
  if truthy a then a else b.

Section NavPlatform.

Variable rt : Runtime.

Let W := WINDOW_WIDTH rt.
Let H := WINDOW_HEIGHT rt.

Definition IS_IPHONE_X_OR_NEWER : bool :=
  IS_IOS rt && negb (Platform_isPad rt) && ((H >=? 812) || (W >=? 812)).

(** [StatusBar.currentHeight > 24]: [undefined] compares as [NaN]. *)
Definition currentHeight_above_24 : bool :=
  match StatusBar_currentHeight rt with
  | Some h => h >? 24
  | None => false
  end.

Definition hasNotch (_ : unit) : bool :=
  IS_IPHONE_X_OR_NEWER || (IS_ANDROID rt && currentHeight_above_24).

Definition hasHomeIndicator (_ : unit) : bool := IS_IPHONE_X_OR_NEWER.

Definition getStatusBarHeight (skipAndroid : option bool) : float :=
  let skipAndroid := default_param false skipAndroid in
  if IS_IOS rt then
    if hasNotch tt then 44 else 20
  else if skipAndroid then 0
  else StatusBar_currentHeight rt ||| 0.

Definition getBottomSpace (_ : unit) : float :=
  if hasHomeIndicator tt then 34 else 0.

Definition getTabBarHeight (_ : unit) : float :=
  let standardHeight := if IS_IOS rt then 49 else 56 in
  standardHeight + getBottomSpace tt.

Definition getHeaderHeight (_ : unit) : float :=
  let statusBarHeight := getStatusBarHeight None in
  let navigationBarHeight := if IS_IOS rt then 44 else 56 in
  statusBarHeight + navigationBarHeight.

Definition select (config : Config) : option float :=
  let baseValue :=
    match Platform_OS rt with
    | ios => cfg_ios config
    | android => cfg_android config
    | other_os =>
        or_optional (or_optional (cfg_default config) (cfg_android config))
                    (cfg_ios config)
    end in
  if IS_IOS rt && hasNotch tt && truthy (cfg_iosNotch config)
  then cfg_iosNotch config
  else baseValue.

End NavPlatform.
End NavPlatform.

(* ================================================================== *)
(** ** src/ui/navigation/theme/tokens.js: the spacing tokens of the
       header and of the tab bar *)

Module Tokens.

Record Header : Type := {
  header_height : option float;
  header_paddingHorizontal : option float;
  statusBarHeight : float;
  header_elevation : option float
}.

Record TabBar : Type := {
  height : float;
  itemPadding : option float;
  iconMargin : option float;
  bottomInset : float
}.

Record Spacing : Type := { header : Header; tabBar : TabBar }.

Record NavigationTokens : Type := { spacing : Spacing }.

Definition ios_android (i a : float) : NavPlatform.Config :=
  {| NavPlatform.cfg_ios := Some i;
     NavPlatform.cfg_android := Some a;
     NavPlatform.cfg_default := None;
     NavPlatform.cfg_iosNotch := None |}.

Definition navigationTokens (rt : Runtime) : NavigationTokens :=
  {| spacing :=
       {| header :=
            {| header_height := NavPlatform.select rt (ios_android 44 56);
               header_paddingHorizontal := NavPlatform.select rt (ios_android 16 16);
               statusBarHeight := NavPlatform.getStatusBarHeight rt None;
               header_elevation := NavPlatform.select rt (ios_android 0 4) |};
          tabBar :=
            {| height := NavPlatform.getTabBarHeight rt tt;
               itemPadding := NavPlatform.select rt (ios_android 4 8);
               iconMargin := NavPlatform.select rt (ios_android 4 0);
               bottomInset := NavPlatform.getBottomSpace rt tt |} |} |}.

End Tokens.

(* ================================================================== *)
(** ** Devices and an engine to run the definitions on *)

Definition phone (os : PlatformOS) (w h : float) : Runtime :=
  {| Platform_OS := os; Platform_isPad := false;
     WINDOW_WIDTH := w; WINDOW_HEIGHT := h;
     PIXEL_RATIO := 3;
     StatusBar_currentHeight := match os with android => Some 24 | _ => None end |}.

Definition iphone8 : Runtime := phone ios 375 667.
Definition iphone14 : Runtime := phone ios 390 844.
Definition iphone14_landscape : Runtime := phone ios 844 390.
Definition pixel7 : Runtime := phone android 412 915.

(** One admissible engine.  [Math.log10] and [Math.pow] are truncated
    series, accurate to about twelve digits on the positive arguments the
    calculator feeds them with; [Number_toString] writes out the exact
    decimal expansion of its argument, which coincides with what an engine
    prints on values such as [0.5], [0.25] and [1].  The statements below
    hold for every engine; this one serves to run them. *)
Module SampleEngine.

Definition ln2 : float := 0.6931471805599453.

(** Bring [x] into [[0.75, 1.5]] by halving or doubling, accumulating the
    multiples of [ln 2]. *)
Fixpoint reduce (fuel : nat) (x acc : float) : float * float :=
  match fuel with
  | O => (x, acc)
  | S fuel' =>
      if 1.5 <? x then reduce fuel' (x / 2) (acc + ln2)
      else if x <? 0.75 then reduce fuel' (x * 2) (acc - ln2)
      else (x, acc)
  end.

(** [sum_{i < n} t^(2i+1) / (2i+1)], from the term [t^(2i+1)] on. *)
Fixpoint atanh_series (n : nat) (power t2 odd : float) : float :=
  match n with
  | O => 0
  | S n' => power / odd + atanh_series n' (power * t2) t2 (odd + 2)
  end.

Definition ln (x : float) : float :=
  if x <=? 0 then nan
  else
    let '(m, acc) := reduce 2200 x 0 in
    let t := (m - 1) / (m + 1) in
    acc + 2 * atanh_series 30 t (t * t) 1.

Fixpoint exp_series (n : nat) (term y k : float) : float :=
  match n with
  | O => 0
  | S n' => term + exp_series n' (term * y / k) y (k + 1)
  end.

Fixpoint square_times (n : nat) (x : float) : float :=
  match n with
  | O => x
  | S n' => square_times n' (x * x)
  end.

Definition exp (y : float) : float :=
  square_times 10 (exp_series 20 1 (y / 1024) 1).

Definition log10 (x : float) : float := ln x / ln 10.

Definition pow (x y : float) : float :=
  if x <=? 0 then 0 else exp (y * ln x).

(** The digits of [num / 2^k] after the decimal point, for [num < 2^k]. *)
Fixpoint fraction_digits (fuel : nat) (num : Z) (k : Z) : string :=
  match fuel with
  | O => ""
  | S fuel' =>
      if (num =? 0)%Z then ""
      else
        let num10 := (10 * num)%Z in
        NilZero.string_of_uint (N.to_uint (Z.to_N (num10 / 2 ^ k)))
          ++ fraction_digits fuel' (num10 mod 2 ^ k) k
  end.

Definition toString (x : float) : string :=
  match Prim2SF x with
  | S754_nan => "NaN"
  | S754_zero _ => "0"
  | S754_infinity s => if s then "-Infinity" else "Infinity"
  | S754_finite s m e =>
      let sign := if s then "-" else "" in
      if (0 <=? e)%Z then
        sign ++ NilZero.string_of_uint (N.to_uint (Z.to_N (Zpos m * 2 ^ e)))
      else
        let k := (- e)%Z in
        let whole := (Zpos m / 2 ^ k)%Z in
        let rest := (Zpos m mod 2 ^ k)%Z in
        sign ++ NilZero.string_of_uint (N.to_uint (Z.to_N whole))
          ++ (if (rest =? 0)%Z then ""
              else "." ++ fraction_digits (Z.to_nat k) rest k)
  end.

Definition engine : Engine :=
  {| Math_log10 := log10; Math_pow := pow; Number_toString := toString |}.

End SampleEngine.

(** *** Vocabulary for the statements

    Both clamps of the calculator have the shape
    [Math.max(0, Math.min(hi, x))]. *)
Definition clamp (hi x : float) : float := Math.max 0 (Math.min hi x).

(** The four ways such a clamp can come out. *)
Inductive clamp_outcome (hi x : float) : float -> Prop :=
| clamp_nan :
    is_nan x = true -> clamp_outcome hi x nan
| clamp_above :
    is_nan x = false -> (x <? hi) = false -> clamp_outcome hi x hi
| clamp_below :
    is_nan x = false -> (x <? hi) = true -> (0 <? x) = false -> clamp_outcome hi x 0
| clamp_inside :
    is_nan x = false -> (x <? hi) = true -> (0 <? x) = true -> clamp_outcome hi x x.

(** The shadow of elevation zero, up to its [elevation] property. *)
Definition zeroShadow (androidElevation : property) : VisualProperties.Shadow :=
  {| VisualProperties.shadowColor := "#000";
     VisualProperties.shadowOffset :=
       {| VisualProperties.offset_width := 0; VisualProperties.offset_height := 0 |};
     VisualProperties.shadowOpacity := 0;
     VisualProperties.shadowRadius := 0;
     VisualProperties.elevation := androidElevation |}.

(** The status bar table of the detector: a fixed value per OS, with the
    tablet and notch overrides of the primary OS. *)
Definition statusBarHeight_table (os : PlatformOS) (tablet hasNotchOrIsland : bool) : float :=
  match os with
  | ios => if tablet then 24 else if hasNotchOrIsland then 47 else 20
  | _ => 24
  end.

(** The standard tab bar height per OS. *)
Definition standardTabBarHeight (os : PlatformOS) : float :=
  match os with ios => 49 | _ => 56 end.

Definition white : VisualProperties.RGB :=
  {| VisualProperties.r := 255; VisualProperties.g := 255; VisualProperties.b := 255 |}.

(** A well-formed colour: an optional ['#'] followed by exactly three or
    exactly six hexadecimal digits. *)
Definition is_hex_colour (s : string) : bool :=
  let digits := list_ascii_of_string (VisualProperties.skip_hash s) in
  ((List.length digits =? 3)%nat || (List.length digits =? 6)%nat)
  && forallb VisualProperties.is_hex digits.

(** The string [getBackdropColor] builds from three channels and an
    opacity. *)
Definition rgba (engine : Engine) (rgb : VisualProperties.RGB) (alpha : float) : string :=
  "rgba(" ++ VisualProperties.decimal (VisualProperties.r rgb)
    ++ ", " ++ VisualProperties.decimal (VisualProperties.g rgb)
    ++ ", " ++ VisualProperties.decimal (VisualProperties.b rgb)
    ++ ", " ++ Number_toString engine alpha ++ ")".

(** Three- and six-digit colour strings, with or without the ['#']. *)
Definition hex3 (hash : bool) (c1 c2 c3 : ascii) : string :=
  (if hash then "#" else "") ++ String c1 (String c2 (String c3 "")).

Definition hex6 (hash : bool) (c1 c2 c3 c4 c5 c6 : ascii) : string :=
  (if hash then "#" else "")
    ++ String c1 (String c2 (String c3 (String c4 (String c5 (String c6 ""))))).

Definition square400 : VisualProperties.SizeSpec :=
  {| VisualProperties.width := Some 400; VisualProperties.height := Some 400 |}.

(* ================================================================== *)
(** ** src/ui/platform/detection.js: [select] *)

Module PlatformSelect.

(** What [select] returns: one of the values it was given, or [null]. *)
Inductive nullable (A : Type) : Type :=
| Null
| Value (a : A).

Arguments Null {A}.
Arguments Value {A} a.

(** The argument of [select]; a key that is missing or holds [undefined]
    is [None]. *)
Record Options (A : Type) : Type := {
  opt_ios : option A;
  opt_android : option A;
  opt_default : option A
}.

Arguments opt_ios {A} _.
Arguments opt_android {A} _.
Arguments opt_default {A} _.

Definition select {A : Type} (rt : Runtime) (options : Options A) : nullable A :=
  match IS_IOS rt, opt_ios options with
  | true, Some ios_value => Value ios_value
  | _, _ =>
      match IS_ANDROID rt, opt_android options with
      | true, Some android_value => Value android_value
      | _, _ =>
          match opt_default options with
          | Some defaultOption => Value defaultOption
          | None => Null
          end
      end
  end.

End PlatformSelect.

(* ================================================================== *)
(** ** src/ui/platform/visualProperties.js: the exported elevation levels *)

Definition elevationLevels : list (string * float) :=
  [("none", 0); ("low", 1); ("medium", 3); ("high", 8); ("overlay", 16)].

(* ================================================================== *)
(** ** src/ui/navigation/configs/tabBar.js

    The functions that compute values; the React elements they are handed
    to are not modelled.  [tokens.colors.background.tabBar] and
    [tokens.colors.border.tabBar] are the literals of tokens.js, and
    [StyleSheet.hairlineWidth] comes from the host. *)

Module TabBarConfig.

(** A call either returns or throws a [TypeError] on reading a property of
    [undefined]. *)
Inductive completion (A : Type) : Type :=
| TypeError
| Return (a : A).

Arguments TypeError {A}.
Arguments Return {A} a.

(** [route.state]: the names of the nested routes and the index of the
    current one, either of which may be missing. *)
Record NavigationState : Type := {
  routes : option (list string);
  index : option nat
}.

Record Route : Type := {
  name : string;
  state : option NavigationState
}.

Record VisibilityStyle : Type := { display : string }.

Definition hiddenRoutes : list string :=
  ["CourseSelector"; "Tracker"; "ScorecardScreen"].

(** [array.includes(x)] on strings. *)
Definition includes (l : list string) (x : string) : bool :=
  existsb (String.eqb x) l.

(** [routes[index]]: [undefined] when there is no index or no such
    element. *)
Definition element (l : list string) (i : option nat) : option string :=
  match i with
  | Some n => nth_error l n
  | None => None
  end.

Definition getIconName (routeName : string) : string :=
  if String.eqb routeName "HomeTab" then "home"
  else if String.eqb routeName "Rounds" then "golf"
  else if String.eqb routeName "Insights" then "bulb"
  else if String.eqb routeName "Profile" then "person"
  else "apps".

Definition getTabBarVisibility (route : option Route)
  : completion (option VisibilityStyle) :=
  match route with
  | None => TypeError                       (* route.name *)
  | Some route =>
      let routeName := name route in
      let own :=
        if includes hiddenRoutes routeName
        then Return (Some {| display := "none" |})
        else Return None in
      match state route with
      | Some st =>
          match routes st with
          | Some rs =>
              match element rs (index st) with
              | None => TypeError           (* currentRoute.name *)
              | Some currentName =>
                  if includes hiddenRoutes currentName
                  then Return (Some {| display := "none" |})
                  else own
              end
          | None => own
          end
      | None => own
      end
  end.

Record TabBarStyle : Type := {
  backgroundColor : string;
  height : float;
  paddingBottom : float;
  borderTopWidth : float;
  borderTopColor : string;
  shadow : VisualProperties.Shadow          (* ...getShadowParams(...) *)
}.

Record LabelStyle : Type := {
  label_fontSize : float;
  label_fontWeight : string;
  marginBottom : float;
  label_letterSpacing : float;
  label_lineHeight : float;
  label_fontFamily : option string
}.

Record ScreenOptions : Type := {
  headerShown : bool;
  tabBarHideOnKeyboard : bool;
  tabBarBackground : bool;                  (* a BackdropMaterial, or null *)
  tabBarStyle : TabBarStyle;
  tabBarItemStyle_paddingTop : float;
  tabBarLabelStyle : LabelStyle
}.

Section TabBarConfig.

Variable engine : Engine.
Variable hairlineWidth : float.
Variable rt : Runtime.

Let platformDetection := Detection.default rt.
Let tokens := Tokens.navigationTokens rt.

(** [platformDetection.isIOS && platformDetection.supportsBlurEffects] as
    a condition: the second operand is the exported function. *)
Definition blurCondition : bool :=
  truthy (Detection.isIOS platformDetection)
  && truthy (Detection.export_supportsBlurEffects platformDetection).

Definition getTabNavigatorScreenOptions (_ : unit) : ScreenOptions :=
  let typography :=
    VisualProperties.getOpticalTypography rt 10 (Some "500") in
  {| headerShown := false;
     tabBarHideOnKeyboard := true;
     tabBarBackground := blurCondition;
     tabBarStyle :=
       {| backgroundColor := if blurCondition then "transparent" else "#FFFFFF";
          height :=
            Tokens.height (Tokens.tabBar (Tokens.spacing tokens))
            + Detection.export_getBottomInset platformDetection tt;
          paddingBottom := Detection.export_getBottomInset platformDetection tt;
          borderTopWidth := hairlineWidth;
          borderTopColor :=
            if blurCondition then "rgba(200, 200, 200, 0.25)" else "#C8C8CC";
          shadow :=
            VisualProperties.getShadowParams engine rt
              (Some (if truthy (Detection.isIOS platformDetection) then 1 else 3)) |};
     tabBarItemStyle_paddingTop := 6;
     tabBarLabelStyle :=
       (* the spread typography overrides fontSize and fontWeight *)
       {| label_fontSize := VisualProperties.fontSize typography;
          label_fontWeight := VisualProperties.fontWeight typography;
          marginBottom := match Platform_OS rt with ios => 0 | _ => 4 end;
          label_letterSpacing := VisualProperties.letterSpacing typography;
          label_lineHeight := VisualProperties.lineHeight typography;
          label_fontFamily := VisualProperties.fontFamily typography |} |}.

End TabBarConfig.
End TabBarConfig.

(** *** Further vocabulary for the statements *)

(** The same device held the other way: width and height exchanged. *)
Definition rotate (rt : Runtime) : Runtime :=
  {| Platform_OS := Platform_OS rt;
     Platform_isPad := Platform_isPad rt;
     WINDOW_WIDTH := WINDOW_HEIGHT rt;
     WINDOW_HEIGHT := WINDOW_WIDTH rt;
     PIXEL_RATIO := PIXEL_RATIO rt;
     StatusBar_currentHeight := StatusBar_currentHeight rt |}.

(** The same device with another pixel ratio. *)
Definition with_pixel_ratio (rt : Runtime) (ratio : float) : Runtime :=
  {| Platform_OS := Platform_OS rt;
     Platform_isPad := Platform_isPad rt;
     WINDOW_WIDTH := WINDOW_WIDTH rt;
     WINDOW_HEIGHT := WINDOW_HEIGHT rt;
     PIXEL_RATIO := ratio;
     StatusBar_currentHeight := StatusBar_currentHeight rt |}.

(** ASCII upper case. *)
Definition to_upper (c : ascii) : ascii :=
  let n := N_of_ascii c in
  if (97 <=? n)%N && (n <=? 122)%N then ascii_of_N (n - 32) else c.

Fixpoint map_string (f : ascii -> ascii) (s : string) : string :=
  match s with
  | EmptyString => EmptyString
  | String c rest => String (f c) (map_string f rest)
  end.

(** The value of a hexadecimal digit, 0 for any other character. *)
Definition digit_value (c : ascii) : N :=
  match VisualProperties.hex_digit c with Some d => d | None => 0%N end.

(** Comparison results that mean "at most", and how two of them chain. *)
Definition at_most (c : comparison) : bool :=
  match c with Gt => false | _ => true end.

Definition chain (c1 c2 : comparison) : comparison :=
  match c1, c2 with Eq, Eq => Eq | _, _ => Lt end.

(* ================================================================== *)
(** ** Facts about binary64 comparisons *)

Section FloatFacts.

Lemma SFcompare_antisym (x y : spec_float) :
  SFcompare y x = option_map CompOpp (SFcompare x y).
Proof.
  destruct x as [sx | sx | | sx mx ex], y as [sy | sy | | sy my ey]; simpl;
    try reflexivity;
    try (destruct sx; reflexivity); try (destruct sy; reflexivity);
    try (destruct sx, sy; reflexivity).
  destruct sx, sy; simpl; try reflexivity;
    rewrite (Z.compare_antisym ex ey);
    destruct (ex ?= ey)%Z; simpl; try reflexivity;
    change (Pos.compare_cont Eq my mx) with (Pos.compare my mx);
    change (Pos.compare_cont Eq mx my) with (Pos.compare mx my);
    rewrite (Pos.compare_antisym mx my);
    destruct (mx ?= my)%positive; reflexivity.
Qed.

Lemma is_nan_false (a : float) : is_nan a = false -> Prim2SF a <> S754_nan.
Proof.
  unfold is_nan. rewrite FloatAxioms.eqb_spec. unfold SFeqb.
  intros Hn Ha. rewrite Ha in Hn. discriminate Hn.
Qed.

Lemma ltb_not_nan (a b : float) :
  (a <? b) = true -> is_nan a = false /\ is_nan b = false.
Proof.
  unfold is_nan. rewrite FloatAxioms.ltb_spec, !FloatAxioms.eqb_spec.
  unfold SFltb, SFeqb.
  destruct (Prim2SF a) as [sa| sa | |sa ma ea], (Prim2SF b) as [sb| sb | |sb mb eb];
    simpl; try discriminate; intros _; split; try reflexivity;
    repeat match goal with
           | s : bool |- _ => destruct s
           end; simpl; try reflexivity;
    rewrite ?Z.compare_refl, ?Pos.compare_refl; reflexivity.
Qed.

Lemma ltb_leb (a b : float) : (a <? b) = true -> (a <=? b) = true.
Proof.
  rewrite FloatAxioms.ltb_spec, FloatAxioms.leb_spec. unfold SFltb, SFleb.
  destruct (SFcompare (Prim2SF a) (Prim2SF b)) as [[]|]; congruence.
Qed.

(** Two numbers are always comparable: when [b < a] fails, [a <= b]. *)
Lemma not_ltb_leb (a b : float) :
  is_nan a = false -> is_nan b = false -> (b <? a) = false -> (a <=? b) = true.
Proof.
  intros Ha%is_nan_false Hb%is_nan_false.
  rewrite FloatAxioms.ltb_spec, FloatAxioms.leb_spec. unfold SFltb, SFleb.
  rewrite (SFcompare_antisym (Prim2SF a) (Prim2SF b)).
  destruct (SFcompare (Prim2SF a) (Prim2SF b)) as [[]|] eqn:E; simpl;
    try congruence.
  destruct (Prim2SF a), (Prim2SF b); simpl in E; congruence.
Qed.

Lemma ltb_neq (a b : float) : (a <? b) = true -> (b =? a) = false.
Proof.
  rewrite FloatAxioms.ltb_spec, FloatAxioms.eqb_spec. unfold SFltb, SFeqb.
  rewrite (SFcompare_antisym (Prim2SF a) (Prim2SF b)).
  destruct (SFcompare (Prim2SF a) (Prim2SF b)) as [[]|]; simpl; congruence.
Qed.

(** Unequal results of the numeric test [=?] are unequal values. *)
Lemma eqb_false_neq (a b : float) : (a =? a) = true -> (a =? b) = false -> a <> b.
Proof. intros Haa Hab E. rewrite <- E in Hab. congruence. Qed.

End FloatFacts.

(* ================================================================== *)
(** ** The two clamps *)

Section Clamps.

Variable hi : float.
Hypothesis hi_number : is_nan hi = false.
Hypothesis hi_positive : (0 <? hi) = true.
Hypothesis hi_not_zero : is_pos_zero hi = false.

Lemma clamp_cases (x : float) : clamp_outcome hi x (clamp hi x).
Proof.
  unfold clamp, Math.min, Math.max.
  change (is_nan 0) with false. change (is_neg_zero 0) with false.
  rewrite hi_number, hi_not_zero. simpl orb. simpl andb.
  destruct (is_nan x) eqn:Hn.
  - now constructor.
  - destruct (x <? hi) eqn:Hhi.
    + rewrite Hn. destruct (0 <? x) eqn:H0.
      * now apply clamp_inside.
      * now apply clamp_below.
    + rewrite hi_number, hi_positive. now apply clamp_above.
Qed.

Lemma clamp_nan_eq : clamp hi nan = nan.
Proof. 
  destruct (clamp_cases nan) as [H|H|H|H]; try reflexivity; discriminate H.
Qed.

Lemma clamp_hi : clamp hi hi = hi.
Proof.
  destruct (clamp_cases hi) as [H|H|H _ H0|H]; try reflexivity; congruence.
Qed.

Lemma clamp_zero : clamp hi 0 = 0.
Proof.
  destruct (clamp_cases 0) as [H|H H'|H|H]; try reflexivity.
  - discriminate H.
  - congruence.
Qed.

(** Clamping twice is clamping once. *)
Lemma clamp_idempotent (x : float) : clamp hi (clamp hi x) = clamp hi x.
Proof.
  destruct (clamp_cases x) as [Hn | Hn Hhi | Hn Hhi H0 | Hn Hhi H0].
  - apply clamp_nan_eq.
  - apply clamp_hi.
  - apply clamp_zero.
  - destruct (clamp_cases x); congruence.
Qed.

(** A number is clamped into [[0, hi]]. *)
Lemma clamp_range (x : float) :
  is_nan x = false -> (0 <=? clamp hi x) = true /\ (clamp hi x <=? hi) = true.
Proof.
  intros Hx.
  assert (H0hi : (0 <=? hi) = true) by now apply ltb_leb.
  assert (Hhihi : (hi <=? hi) = true).
  { apply not_ltb_leb; trivial.
    destruct (hi <? hi) eqn:E; trivial. apply ltb_neq in E.
    unfold is_nan in hi_number. rewrite E in hi_number. discriminate. }
  destruct (clamp_cases x) as [Hn | Hn Hhi | Hn Hhi H0 | Hn Hhi H0].
  - congruence.
  - split; assumption.
  - split; [reflexivity | assumption].
  - split; now apply ltb_leb.
Qed.

End Clamps.

Lemma normalizedElevation_idempotent (e : float) :
  VisualProperties.normalizedElevation (VisualProperties.normalizedElevation e)
  = VisualProperties.normalizedElevation e.
Proof. apply (clamp_idempotent 24); reflexivity. Qed.

Lemma normalizedElevation_inside (e : float) :
  (0 <? e) = true -> (e <? 24) = true -> VisualProperties.normalizedElevation e = e.
Proof.
  intros H0 H24. destruct (ltb_not_nan _ _ H0) as [_ Hn].
  change (VisualProperties.normalizedElevation e) with (clamp 24 e).
  destruct (clamp_cases 24 eq_refl eq_refl eq_refl e); congruence.
Qed.

Lemma clampedOpacity_range (o : float) :
  is_nan o = false ->
  (0 <=? VisualProperties.clampedOpacity o) = true
  /\ (VisualProperties.clampedOpacity o <=? 1) = true.
Proof. apply (clamp_range 1); reflexivity. Qed.

(* ================================================================== *)
(** ** Shadows *)

Section Shadows.

Import VisualProperties.

Variable engine : Engine.

Lemma getShadowParams_normalized (rt : Runtime) (e : float) :
  getShadowParams engine rt (Some e)
  = getShadowParams engine rt (Some (normalizedElevation e)).
Proof.
  unfold getShadowParams, default_param. cbv zeta.
  rewrite normalizedElevation_idempotent. reflexivity.
Qed.

Lemma getShadowParams_zero (rt : Runtime) :
  getShadowParams engine rt (Some 0)
  = zeroShadow (match Platform_OS rt with
                | android => Number 0
                | _ => Undefined
                end).
Proof. destruct rt as [[]]; reflexivity. Qed.

End Shadows.

(* ================================================================== *)
(** ** Capability detection *)

Section Capabilities.

Lemma hasNotchOrDynamicIsland_height_only (rt : Runtime) :
  Detection.hasNotchOrDynamicIsland rt tt
  = IS_IOS rt && (WINDOW_HEIGHT rt >=? 812) && negb (Platform_isPad rt).
Proof.
  unfold Detection.hasNotchOrDynamicIsland. destruct (IS_IOS rt); reflexivity.
Qed.

Lemma hasDynamicIsland_eq (rt : Runtime) :
  Detection.hasDynamicIsland rt tt
  = ((Math.min (WINDOW_WIDTH rt) (WINDOW_HEIGHT rt) =? 393)
     || (Math.min (WINDOW_WIDTH rt) (WINDOW_HEIGHT rt) =? 430))
    && Detection.hasNotchOrDynamicIsland rt tt.
Proof.
  unfold Detection.hasDynamicIsland, Detection.hasNotchOrDynamicIsland.
  destruct (IS_IOS rt); simpl.
  - destruct (Platform_isPad rt); simpl.
    + now rewrite andb_false_r, andb_false_r.
    + reflexivity.
  - now rewrite andb_false_r.
Qed.

End Capabilities.

(** C2.  A primary-OS phone captured in landscape, 844 wide and 390 high:
    its longer side is at least 812 and it is not a tablet, yet
    [hasNotchOrDynamicIsland] of the detector answers [false], because it
    reads the height alone; the navigation theme's [IS_IPHONE_X_OR_NEWER]
    reads both sides and answers [true] on the same device. *)
Theorem hasNotchOrDynamicIsland_landscape :
  Platform_OS iphone14_landscape = ios
  /\ Platform_isPad iphone14_landscape = false
  /\ (Math.max (WINDOW_WIDTH iphone14_landscape) (WINDOW_HEIGHT iphone14_landscape)
      >=? 812) = true
  /\ Detection.hasNotchOrDynamicIsland iphone14_landscape tt = false
  /\ NavPlatform.IS_IPHONE_X_OR_NEWER iphone14_landscape = true.
Proof. repeat split; reflexivity. Qed.

(** C4.  [hasDynamicIsland] answers [true] exactly when the shorter window
    side is 393 or 430 and [hasNotchOrDynamicIsland] answers [true]; a
    primary-OS phone 400 wide and 900 high has the notch and no island. *)
Theorem hasDynamicIsland_whitelist (rt : Runtime) :
  (Detection.hasDynamicIsland rt tt = true
   <-> ((Math.min (WINDOW_WIDTH rt) (WINDOW_HEIGHT rt) =? 393) = true
        \/ (Math.min (WINDOW_WIDTH rt) (WINDOW_HEIGHT rt) =? 430) = true)
       /\ Detection.hasNotchOrDynamicIsland rt tt = true)
  /\ Detection.hasNotchOrDynamicIsland (phone ios 400 900) tt = true
  /\ Detection.hasDynamicIsland (phone ios 400 900) tt = false.
Proof.
  split; [| split; reflexivity].
  rewrite hasDynamicIsland_eq, andb_true_iff, orb_true_iff. reflexivity.
Qed.

(* ================================================================== *)
(** ** Status bar and tab bar heights *)

Section Heights.

Import Tokens.

Lemma detection_getStatusBarHeight_table (rt : Runtime) :
  Detection.getStatusBarHeight rt tt
  = statusBarHeight_table (Platform_OS rt) (Platform_isPad rt)
      (Detection.hasNotchOrDynamicIsland rt tt).
Proof.
  unfold Detection.getStatusBarHeight, statusBarHeight_table, IS_IOS.
  destruct (Platform_OS rt); reflexivity.
Qed.

Lemma nav_getStatusBarHeight_eq (rt : Runtime) :
  NavPlatform.getStatusBarHeight rt None
  = match Platform_OS rt with
    | ios => if NavPlatform.hasNotch rt tt then 44 else 20
    | _ => StatusBar_currentHeight rt ||| 0
    end.
Proof.
  unfold NavPlatform.getStatusBarHeight, IS_IOS.
  destruct (Platform_OS rt); reflexivity.
Qed.

End Heights.

(** C3, as stated, fails.  On a primary-OS phone 390 wide and 844 high the
    detector reports a notch, so the table asks for 47; the accessor behind
    the token [spacing.header.statusBarHeight] gives 44. *)
Lemma statusBarHeight_token_off_table :
  Detection.hasNotchOrDynamicIsland iphone14 tt = true
  /\ Tokens.statusBarHeight (Tokens.header (Tokens.spacing (Tokens.navigationTokens iphone14)))
     = 44
  /\ Tokens.statusBarHeight (Tokens.header (Tokens.spacing (Tokens.navigationTokens iphone14)))
     <> statusBarHeight_table (Platform_OS iphone14) (Platform_isPad iphone14)
          (Detection.hasNotchOrDynamicIsland iphone14 tt).
Proof.
  repeat split. apply eqb_false_neq; reflexivity.
Qed.

(** C3, amended.  The detector's [getStatusBarHeight] follows the table: 24
    on a primary-OS tablet, else 47 with a notch and 20 without, and 24 on
    any other OS.  The navigation theme's accessor, which the token
    [spacing.header.statusBarHeight] reads, does not: on the primary OS it is
    44 when its own [hasNotch] holds and 20 otherwise, and elsewhere it is
    the height the host's status bar reports, or 0 when there is none. *)
Theorem statusBarHeight_accessors (rt : Runtime) :
  Detection.getStatusBarHeight rt tt
  = statusBarHeight_table (Platform_OS rt) (Platform_isPad rt)
      (Detection.hasNotchOrDynamicIsland rt tt)
  /\ Detection.top (Detection.getSafeAreaInsets rt tt) = Detection.getStatusBarHeight rt tt
  /\ Tokens.statusBarHeight (Tokens.header (Tokens.spacing (Tokens.navigationTokens rt)))
     = NavPlatform.getStatusBarHeight rt None
  /\ NavPlatform.getStatusBarHeight rt None
     = match Platform_OS rt with
       | ios => if NavPlatform.hasNotch rt tt then 44 else 20
       | _ => StatusBar_currentHeight rt ||| 0
       end.
Proof.
  split; [apply detection_getStatusBarHeight_table |].
  split; [reflexivity |].
  split; [reflexivity | apply nav_getStatusBarHeight_eq].
Qed.

(** C10.  [getTabBarHeight] is the standard height of the OS, 49 on the
    primary OS and 56 otherwise, plus the bottom space, 34 with a home
    indicator and 0 without; the token [spacing.tabBar.height] is that sum,
    so on a phone with a home indicator it is 83 and not the bare 49. *)
Theorem getTabBarHeight_includes_inset (rt : Runtime) :
  NavPlatform.getTabBarHeight rt tt
  = standardTabBarHeight (Platform_OS rt)
    + (if NavPlatform.hasHomeIndicator rt tt then 34 else 0)
  /\ NavPlatform.getBottomSpace rt tt = (if NavPlatform.hasHomeIndicator rt tt then 34 else 0)
  /\ Tokens.height (Tokens.tabBar (Tokens.spacing (Tokens.navigationTokens rt)))
     = NavPlatform.getTabBarHeight rt tt
  /\ NavPlatform.hasHomeIndicator iphone14 tt = true
  /\ Tokens.height (Tokens.tabBar (Tokens.spacing (Tokens.navigationTokens iphone14))) = 83
  /\ Tokens.height (Tokens.tabBar (Tokens.spacing (Tokens.navigationTokens iphone8))) = 49
  /\ Tokens.height (Tokens.tabBar (Tokens.spacing (Tokens.navigationTokens pixel7))) = 56.
Proof.
  split.
  { unfold NavPlatform.getTabBarHeight, NavPlatform.getBottomSpace,
      standardTabBarHeight, IS_IOS.
    destruct (Platform_OS rt); reflexivity. }
  repeat split.
Qed.

(* ================================================================== *)
(** ** Corner radius *)

Section CornerRadius.

Import VisualProperties.

Variable engine : Engine.

(** The condition of the inner [if] is the exported function itself, not
    the result of calling it. *)
Lemma platformAdjusted_eq (rt : Runtime) (scaleFactor : float) :
  platformAdjusted rt scaleFactor
  = match Platform_OS rt with
    | ios => scaleFactor * 1.2
    | android => scaleFactor * 0.75
    | other_os => scaleFactor
    end.
Proof.
  unfold platformAdjusted. simpl. unfold truthy, Truthy_bool, IS_IOS, IS_ANDROID.
  destruct (Platform_OS rt); reflexivity.
Qed.

Lemma getCornerRadius_pill_eq (rt : Runtime) (size : SizeSpec) :
  getCornerRadius engine rt size (Some "pill")
  = if baseSize size =? 0 then 20 else baseSize size / 2.
Proof. reflexivity. Qed.

End CornerRadius.

(** C1.  On a primary-OS device that is not a modern form factor (375 by
    667, for which [isIPhone12OrNewer()] is [false]) the scale factor of the
    standard variant is still multiplied by 1.2: the radius of a 400 by 400
    container is computed from [0.1 * 1.2].  With the sample engine that is
    16.24..., where the unmultiplied factor would give 15.20.... *)
Theorem getCornerRadius_iphone8_multiplied (engine : Engine) :
  Detection.isIPhone12OrNewer iphone8 tt = false
  /\ VisualProperties.platformAdjusted iphone8 0.1 = 0.1 * 1.2
  /\ VisualProperties.getCornerRadius engine iphone8 square400 (Some "standard")
     = Math.max (10 / 2)
         (Math.min (10 + Math_log10 engine (Math.max 100 400) * 400 * (0.1 * 1.2) * 0.05)
                   (400 * 0.25))
  /\ VisualProperties.getCornerRadius SampleEngine.engine iphone8 square400 (Some "standard")
     = 16.244943979187109
  /\ Math.max (10 / 2)
       (Math.min (10 + SampleEngine.log10 (Math.max 100 400) * 400 * 0.1 * 0.05)
                 (400 * 0.25))
     = 15.204119982655925.
Proof. repeat split. Qed.

(** C7.  For the pill variant the radius is half the smaller side whenever
    that side is not zero, whatever the OS and the device, and the fallback
    20 when it is zero: 50 for a 200 by 100 container, 20 for an empty
    one. *)
Theorem getCornerRadius_pill (engine : Engine) (rt : Runtime)
    (size : VisualProperties.SizeSpec) :
  ((VisualProperties.baseSize size =? 0) = false ->
   VisualProperties.getCornerRadius engine rt size (Some "pill")
   = VisualProperties.baseSize size / 2)
  /\ ((VisualProperties.baseSize size =? 0) = true ->
      VisualProperties.getCornerRadius engine rt size (Some "pill") = 20)
  /\ VisualProperties.getCornerRadius engine rt
       {| VisualProperties.width := Some 200; VisualProperties.height := Some 100 |}
       (Some "pill") = 50
  /\ VisualProperties.getCornerRadius engine rt
       {| VisualProperties.width := Some 0; VisualProperties.height := Some 0 |}
       (Some "pill") = 20.
Proof.
  split; [| split; [| split; reflexivity]];
    intros H; rewrite getCornerRadius_pill_eq, H; reflexivity.
Qed.

Lemma getCornerRadius_pill_witness :
  VisualProperties.getCornerRadius SampleEngine.engine pixel7
    {| VisualProperties.width := Some 200; VisualProperties.height := Some 100 |}
    (Some "pill")
  = VisualProperties.baseSize
      {| VisualProperties.width := Some 200; VisualProperties.height := Some 100 |} / 2
  /\ VisualProperties.getCornerRadius SampleEngine.engine pixel7
       {| VisualProperties.width := None; VisualProperties.height := Some 100 |}
       (Some "pill") = 20.
Proof.
  split.
  - apply (proj1 (getCornerRadius_pill SampleEngine.engine pixel7
                    {| VisualProperties.width := Some 200;
                       VisualProperties.height := Some 100 |})).
    reflexivity.
  - apply (proj1 (proj2 (getCornerRadius_pill SampleEngine.engine pixel7
                    {| VisualProperties.width := None;
                       VisualProperties.height := Some 100 |}))).
    reflexivity.
Defined.

(* ================================================================== *)
(** ** Shadows: the claims *)

(** C5.  On the primary OS, when the clamped elevation [n] is above zero,
    the shadow has radius [n^0.7 * 0.8], offset [{0, n * min(n/8, 1)}] and
    opacity [0.18 - n/100], and no [elevation] property; [n] is the
    elevation itself when that lies between 0 and 24.  The opacity is not
    clamped: it is zero at 18 and below zero at 18.5, 19, 20, 22, 24 and
    30. *)
Theorem getShadowParams_ios (engine : Engine) (rt : Runtime) (e : float) :
  (Platform_OS rt = ios ->
   (0 <? VisualProperties.normalizedElevation e) = true ->
   VisualProperties.getShadowParams engine rt (Some e)
   = {| VisualProperties.shadowColor := "#000";
        VisualProperties.shadowOffset :=
          {| VisualProperties.offset_width := 0;
             VisualProperties.offset_height :=
               VisualProperties.normalizedElevation e
               * Math.min (VisualProperties.normalizedElevation e / 8) 1 |};
        VisualProperties.shadowOpacity :=
          0.18 - VisualProperties.normalizedElevation e / 100;
        VisualProperties.shadowRadius :=
          Math_pow engine (VisualProperties.normalizedElevation e) 0.7 * 0.8;
        VisualProperties.elevation := Absent |})
  /\ ((0 <? e) = true -> (e <? 24) = true ->
      VisualProperties.normalizedElevation e = e)
  /\ VisualProperties.normalizedElevation 24 = 24
  /\ VisualProperties.shadowOpacity
       (VisualProperties.getShadowParams engine iphone14 (Some 18)) = 0
  /\ forallb
       (fun x => VisualProperties.shadowOpacity
                   (VisualProperties.getShadowParams engine iphone14 (Some x)) <? 0)
       [18.5; 19; 20; 22; 24; 30] = true.
Proof.
  split; [| split; [apply normalizedElevation_inside | repeat split]].
  intros Hos Hpos.
  unfold VisualProperties.getShadowParams, default_param. cbv zeta.
  rewrite (ltb_neq _ _ Hpos).
  simpl. unfold truthy, Truthy_bool, IS_IOS. rewrite Hos. reflexivity.
Qed.

Lemma getShadowParams_ios_witness :
  VisualProperties.getShadowParams SampleEngine.engine iphone14 (Some 8)
  = {| VisualProperties.shadowColor := "#000";
       VisualProperties.shadowOffset :=
         {| VisualProperties.offset_width := 0;
            VisualProperties.offset_height :=
              VisualProperties.normalizedElevation 8
              * Math.min (VisualProperties.normalizedElevation 8 / 8) 1 |};
       VisualProperties.shadowOpacity :=
         0.18 - VisualProperties.normalizedElevation 8 / 100;
       VisualProperties.shadowRadius :=
         SampleEngine.pow (VisualProperties.normalizedElevation 8) 0.7 * 0.8;
       VisualProperties.elevation := Absent |}.
Proof.
  apply (proj1 (getShadowParams_ios SampleEngine.engine iphone14 8)); reflexivity.
Defined.

(** C6.  [getShadowParams] sees its argument only through the clamp to
    [[0, 24]]: the shadow of [e] is the shadow of the clamped [e], so -5
    gives the shadow of 0 and 30 the shadow of 24; and the shadow of 0 is
    black, with zero offset, opacity and radius, its [elevation] being 0 on
    the secondary OS and [undefined] elsewhere. *)
Theorem getShadowParams_clamps (engine : Engine) (rt : Runtime) (e : float) :
  VisualProperties.getShadowParams engine rt (Some e)
  = VisualProperties.getShadowParams engine rt
      (Some (VisualProperties.normalizedElevation e))
  /\ VisualProperties.normalizedElevation (-5) = 0
  /\ VisualProperties.normalizedElevation 30 = 24
  /\ VisualProperties.getShadowParams engine rt (Some (-5))
     = VisualProperties.getShadowParams engine rt (Some 0)
  /\ VisualProperties.getShadowParams engine rt (Some 30)
     = VisualProperties.getShadowParams engine rt (Some 24)
  /\ VisualProperties.getShadowParams engine rt (Some 0)
     = zeroShadow (match Platform_OS rt with
                   | android => Number 0
                   | _ => Undefined
                   end).
Proof.
  split; [apply getShadowParams_normalized |].
  split; [reflexivity |]. split; [reflexivity |].
  split; [apply (getShadowParams_normalized engine rt (-5)) |].
  split; [apply (getShadowParams_normalized engine rt 30) |].
  apply getShadowParams_zero.
Qed.

(* ================================================================== *)
(** ** Typography *)

(** C8.  Below 14 the letter spacing of a bold face is exactly 0.6: the
    weight token is ["700"], which compares at least ["600"] as a string, so
    0.1 is added to the base 0.5; for any weight the 0.1 is added exactly
    when the token compares at least ["600"]. *)
Theorem letterSpacing_small_bold (rt : Runtime) (fontSize : float) :
  (fontSize <? 14) = true ->
  VisualProperties.letterSpacing
    (VisualProperties.getOpticalTypography rt fontSize (Some "bold")) = 0.6
  /\ VisualProperties.fontWeight
       (VisualProperties.getOpticalTypography rt fontSize (Some "bold")) = "700"
  /\ string_geb "700" "600" = true
  /\ forall weight,
       VisualProperties.letterSpacing
         (VisualProperties.getOpticalTypography rt fontSize (Some weight))
       = if string_geb
              (VisualProperties.fontWeight
                 (VisualProperties.getOpticalTypography rt fontSize (Some weight)))
              "600"
         then 0.5 + 0.1 else 0.5.
Proof.
  intros Hsmall.
  unfold VisualProperties.getOpticalTypography, default_param.
  cbn [VisualProperties.letterSpacing VisualProperties.fontWeight].
  rewrite Hsmall. repeat split.
Qed.

Lemma letterSpacing_small_bold_witness :
  VisualProperties.letterSpacing
    (VisualProperties.getOpticalTypography iphone14 12 (Some "bold")) = 0.6.
Proof.
  apply (proj1 (letterSpacing_small_bold iphone14 12 eq_refl)).
Defined.

(* ================================================================== *)
(** ** Backdrop colour *)

Section BackdropColor.

Import VisualProperties.

Lemma skip_hash_hex (c : ascii) (s : string) :
  is_hex c = true -> skip_hash (String c s) = String c s.
Proof.
  destruct c as [[] [] [] [] [] [] [] []]; try reflexivity; discriminate.
Qed.

Lemma shorthandRegex_well_formed (s : string) (captures : ascii * ascii * ascii) :
  shorthandRegex s = Some captures -> is_hex_colour s = true.
Proof.
  unfold shorthandRegex, is_hex_colour.
  destruct (skip_hash s) as [| c1 [| c2 [| c3 [|]]]]; try discriminate.
  simpl. destruct (is_hex c1), (is_hex c2), (is_hex c3); simpl;
    intros; congruence.
Qed.

Lemma fullRegex_well_formed (s : string) (captures : string * string * string) :
  fullRegex_exec s = Some captures -> is_hex_colour s = true.
Proof.
  unfold fullRegex_exec, is_hex_colour.
  destruct (skip_hash s) as [| c1 [| c2 [| c3 [| c4 [| c5 [| c6 [|]]]]]]];
    try discriminate.
  simpl.
  destruct (is_hex c1), (is_hex c2), (is_hex c3),
           (is_hex c4), (is_hex c5), (is_hex c6); simpl;
    intros; congruence.
Qed.

Lemma hexToRgb_malformed (hex : string) :
  is_hex_colour hex = false -> hexToRgb hex = white.
Proof.
  intros Hbad. unfold hexToRgb.
  destruct (shorthandRegex hex) as [[[cr cg] cb] |] eqn:Hshort.
  - apply shorthandRegex_well_formed in Hshort. congruence.
  - destruct (fullRegex_exec hex) as [[[r1 g1] b1] |] eqn:Hfull.
    + apply fullRegex_well_formed in Hfull. congruence.
    + reflexivity.
Qed.

(** A three-digit colour is read as the six-digit colour with every digit
    doubled. *)
Lemma hexToRgb_expands (hash : bool) (c1 c2 c3 : ascii) :
  is_hex c1 = true -> is_hex c2 = true -> is_hex c3 = true ->
  hexToRgb (hex3 hash c1 c2 c3) = hexToRgb (hex6 true c1 c1 c2 c2 c3 c3)
  /\ hexToRgb (hex3 hash c1 c2 c3)
     = {| r := parseInt16 (String c1 (String c1 ""));
          g := parseInt16 (String c2 (String c2 ""));
          b := parseInt16 (String c3 (String c3 "")) |}.
Proof.
  intros H1 H2 H3.
  assert (Hsix : hexToRgb (hex6 true c1 c1 c2 c2 c3 c3)
                 = {| r := parseInt16 (String c1 (String c1 ""));
                      g := parseInt16 (String c2 (String c2 ""));
                      b := parseInt16 (String c3 (String c3 "")) |}).
  { unfold hexToRgb, shorthandRegex, fullRegex_exec, hex6. simpl.
    rewrite H1, H2, H3. reflexivity. }
  rewrite Hsix.
  enough (hexToRgb (hex3 hash c1 c2 c3)
          = {| r := parseInt16 (String c1 (String c1 ""));
               g := parseInt16 (String c2 (String c2 ""));
               b := parseInt16 (String c3 (String c3 "")) |}) by now split.
  assert (Hshort : shorthandRegex (hex3 hash c1 c2 c3) = Some (c1, c2, c3)).
  { unfold shorthandRegex.
    replace (skip_hash (hex3 hash c1 c2 c3))
      with (String c1 (String c2 (String c3 ""))).
    - rewrite H1, H2, H3. reflexivity.
    - destruct hash; [reflexivity |].
      symmetry. apply (skip_hash_hex c1 _ H1). }
  unfold hexToRgb. rewrite Hshort.
  unfold fullRegex_exec. rewrite (skip_hash_hex c1 _ H1).
  rewrite H1, H2, H3. reflexivity.
Qed.

End BackdropColor.

(** C9.  [getBackdropColor] is total: for every colour string and every
    opacity it returns the [rgba] string of the parsed channels and the
    clamped opacity.  A number is clamped into [[0, 1]]; a three-digit
    colour is parsed as its six-digit expansion, so ['#fff'] with 0.5 gives
    (255, 255, 255) with alpha 0.5 and ['#bad'] with 2 gives alpha 1; a
    string that is not a three- or six-digit colour gives white. *)
Theorem getBackdropColor_total (engine : Engine) :
  (forall baseColor opacity,
     VisualProperties.getBackdropColor engine baseColor opacity
     = rgba engine
         (VisualProperties.hexToRgb (default_param "#FFFFFF" baseColor))
         (VisualProperties.clampedOpacity (default_param 0.8 opacity)))
  /\ (forall opacity,
        is_nan opacity = false ->
        (0 <=? VisualProperties.clampedOpacity opacity) = true
        /\ (VisualProperties.clampedOpacity opacity <=? 1) = true)
  /\ (forall hash c1 c2 c3,
        VisualProperties.is_hex c1 = true ->
        VisualProperties.is_hex c2 = true ->
        VisualProperties.is_hex c3 = true ->
        VisualProperties.hexToRgb (hex3 hash c1 c2 c3)
        = VisualProperties.hexToRgb (hex6 true c1 c1 c2 c2 c3 c3))
  /\ VisualProperties.getBackdropColor engine (Some "#fff") (Some 0.5)
     = "rgba(255, 255, 255, " ++ Number_toString engine 0.5 ++ ")"
  /\ VisualProperties.getBackdropColor engine (Some "#bad") (Some 2)
     = "rgba(187, 170, 221, " ++ Number_toString engine 1 ++ ")"
  /\ (forall hex opacity,
        is_hex_colour hex = false ->
        VisualProperties.hexToRgb hex = white
        /\ VisualProperties.getBackdropColor engine (Some hex) opacity
           = "rgba(255, 255, 255, "
               ++ Number_toString engine
                    (VisualProperties.clampedOpacity (default_param 0.8 opacity))
               ++ ")").
Proof.
  split; [reflexivity |].
  split; [apply clampedOpacity_range |].
  split; [intros hash c1 c2 c3 H1 H2 H3; apply (hexToRgb_expands hash c1 c2 c3 H1 H2 H3) |].
  split; [reflexivity |]. split; [reflexivity |].
  intros hex opacity Hbad. split; [now apply hexToRgb_malformed |].
  unfold VisualProperties.getBackdropColor, default_param. cbv zeta.
  rewrite (hexToRgb_malformed hex Hbad). reflexivity.
Qed.

Lemma getBackdropColor_total_witness :
  VisualProperties.getBackdropColor SampleEngine.engine (Some "#12345") (Some 0.25)
  = "rgba(255, 255, 255, 0.25)"
  /\ (0 <=? VisualProperties.clampedOpacity (-3)) = true
  /\ VisualProperties.hexToRgb "fa0" = VisualProperties.hexToRgb "#ffaa00".
Proof.
  pose proof (getBackdropColor_total SampleEngine.engine)
    as (_ & Hrange & Hexpand & _ & _ & Hbad).
  split; [| split].
  - apply (proj2 (Hbad "#12345" (Some 0.25) eq_refl)).
  - apply (proj1 (Hrange (-3) eq_refl)).
  - apply (Hexpand false "f"%char "a"%char "0"%char); reflexivity.
Defined.

(* ================================================================== *)
(** ** The order of binary64 numbers *)

Section FloatOrder.

Lemma SFcompare_trans (x y z : spec_float) (c1 c2 : comparison) :
  SFcompare x y = Some c1 -> SFcompare y z = Some c2 ->
  at_most c1 = true -> at_most c2 = true ->
  SFcompare x z = Some (chain c1 c2).
Proof.
  destruct x as [sx | sx | | sx mx ex], y as [sy | sy | | sy my ey],
           z as [sz | sz | | sz mz ez]; simpl;
    try discriminate;
    try (destruct sx); try (destruct sy); try (destruct sz); simpl;
    intros H1 H2 N1 N2;
    try (injection H1 as <-); try (injection H2 as <-);
    try discriminate; try reflexivity.
  all: repeat match goal with
       | |- context [Pos.compare_cont Eq ?a ?b] =>
           change (Pos.compare_cont Eq a b) with (Pos.compare a b)
       | H : context [Pos.compare_cont Eq ?a ?b] |- _ =>
           change (Pos.compare_cont Eq a b) with (Pos.compare a b) in H
       end.
  all: try (destruct (ex ?= ey)%Z, (mx ?= my)%positive; reflexivity).
  all: destruct (Z.compare_spec ex ey), (Z.compare_spec ey ez), (Z.compare_spec ex ez);
    simpl in *; try discriminate; try lia; try reflexivity.
  all: destruct (Pos.compare_spec mx my), (Pos.compare_spec my mz), (Pos.compare_spec mx mz);
    simpl in *; try discriminate; try lia; try reflexivity.
Qed.

(** The three tests, read on the comparison of the two numbers. *)
Lemma leb_compare (a b : float) :
  (a <=? b) = match SFcompare (Prim2SF a) (Prim2SF b) with
              | Some c => at_most c
              | None => false
              end.
Proof.
  rewrite FloatAxioms.leb_spec. unfold SFleb.
  destruct (SFcompare _ _) as [[]|]; reflexivity.
Qed.

Lemma ltb_compare (a b : float) :
  (a <? b) = match SFcompare (Prim2SF a) (Prim2SF b) with
             | Some Lt => true
             | _ => false
             end.
Proof. rewrite FloatAxioms.ltb_spec. reflexivity. Qed.

Lemma leb_trans (a b c : float) :
  (a <=? b) = true -> (b <=? c) = true -> (a <=? c) = true.
Proof.
  rewrite !leb_compare.
  destruct (SFcompare (Prim2SF a) (Prim2SF b)) as [c1|] eqn:E1; [| discriminate].
  destruct (SFcompare (Prim2SF b) (Prim2SF c)) as [c2|] eqn:E2; [| discriminate].
  intros N1 N2. rewrite (SFcompare_trans _ _ _ _ _ E1 E2 N1 N2).
  destruct c1, c2; reflexivity.
Qed.

Lemma leb_ltb_trans (a b c : float) :
  (a <=? b) = true -> (b <? c) = true -> (a <? c) = true.
Proof.
  rewrite leb_compare, !ltb_compare.
  destruct (SFcompare (Prim2SF a) (Prim2SF b)) as [c1|] eqn:E1; [| discriminate].
  destruct (SFcompare (Prim2SF b) (Prim2SF c)) as [c2|] eqn:E2; [| discriminate].
  intros N1 N2. destruct c2; try discriminate.
  rewrite (SFcompare_trans _ _ _ _ _ E1 E2 N1 eq_refl).
  destruct c1; reflexivity.
Qed.

Lemma ltb_leb_trans (a b c : float) :
  (a <? b) = true -> (b <=? c) = true -> (a <? c) = true.
Proof.
  rewrite leb_compare, !ltb_compare.
  destruct (SFcompare (Prim2SF a) (Prim2SF b)) as [c1|] eqn:E1; [| discriminate].
  destruct (SFcompare (Prim2SF b) (Prim2SF c)) as [c2|] eqn:E2; [| discriminate].
  intros N1 N2. destruct c1; try discriminate.
  rewrite (SFcompare_trans _ _ _ _ _ E1 E2 eq_refl N2).
  destruct c2; reflexivity.
Qed.

Lemma leb_not_nan (a b : float) :
  (a <=? b) = true -> is_nan a = false /\ is_nan b = false.
Proof.
  unfold is_nan. rewrite FloatAxioms.leb_spec, !FloatAxioms.eqb_spec.
  unfold SFleb, SFeqb.
  destruct (Prim2SF a) as [sa| sa | |sa ma ea], (Prim2SF b) as [sb| sb | |sb mb eb];
    simpl; try discriminate; intros _; split; try reflexivity;
    repeat match goal with
           | s : bool |- _ => destruct s
           end; simpl; try reflexivity;
    rewrite ?Z.compare_refl, ?Pos.compare_refl; reflexivity.
Qed.

Lemma leb_refl (a : float) : is_nan a = false -> (a <=? a) = true.
Proof.
  unfold is_nan. rewrite FloatAxioms.eqb_spec, FloatAxioms.leb_spec.
  unfold SFeqb, SFleb.
  destruct (SFcompare _ _) as [[]|]; simpl; congruence.
Qed.

Lemma leb_not_ltb (a b : float) : (a <=? b) = true -> (b <? a) = false.
Proof.
  rewrite leb_compare, ltb_compare.
  rewrite (SFcompare_antisym (Prim2SF a) (Prim2SF b)).
  destruct (SFcompare (Prim2SF a) (Prim2SF b)) as [[]|]; simpl; congruence.
Qed.

Lemma ltb_asym (a b : float) : (a <? b) = true -> (b <? a) = false.
Proof. intros H. apply leb_not_ltb. now apply ltb_leb. Qed.

Lemma nan_ltb_l (a b : float) : is_nan a = true -> (a <? b) = false.
Proof.
  intros Hn. destruct (a <? b) eqn:E; trivial.
  apply ltb_not_nan in E. destruct E; congruence.
Qed.

Lemma nan_leb_r (a b : float) : is_nan b = true -> (a <=? b) = false.
Proof.
  intros Hn. destruct (a <=? b) eqn:E; trivial.
  apply leb_not_nan in E. destruct E; congruence.
Qed.

(** A signed zero is a number equal to zero. *)
Lemma is_neg_zero_spec (a : float) :
  is_neg_zero a = true -> Prim2SF a = S754_zero true.
Proof.
  unfold is_neg_zero. rewrite FloatAxioms.classify_spec.
  unfold SF64classify, SFclassify.
  destruct (Prim2SF a) as [[]|[]| |[] m e]; try discriminate; try reflexivity;
    destruct (Z.eqb _ _); discriminate.
Qed.

Lemma is_pos_zero_spec (a : float) :
  is_pos_zero a = true -> Prim2SF a = S754_zero false.
Proof.
  unfold is_pos_zero. rewrite FloatAxioms.classify_spec.
  unfold SF64classify, SFclassify.
  destruct (Prim2SF a) as [[]|[]| |[] m e]; try discriminate; try reflexivity;
    destruct (Z.eqb _ _); discriminate.
Qed.

Lemma zeros_leb (a b : float) (sa sb : bool) :
  Prim2SF a = S754_zero sa -> Prim2SF b = S754_zero sb -> (a <=? b) = true.
Proof. intros Ha Hb. rewrite leb_compare, Ha, Hb. reflexivity. Qed.

(** [Math.max] of two numbers is one of them and bounds both. *)
Lemma Math_max_spec (a b : float) :
  is_nan a = false -> is_nan b = false ->
  (Math.max a b = a \/ Math.max a b = b)
  /\ (a <=? Math.max a b) = true /\ (b <=? Math.max a b) = true.
Proof.
  intros Ha Hb. unfold Math.max. rewrite Ha, Hb. simpl.
  destruct (is_neg_zero a) eqn:Hza; simpl.
  - destruct (is_pos_zero b) eqn:Hzb.
    + split; [now right |]. split; [| now apply leb_refl].
      apply (zeros_leb a b true false);
        [now apply is_neg_zero_spec | now apply is_pos_zero_spec].
    + destruct (a <? b) eqn:Hlt.
      * split; [now right |]. split; [now apply ltb_leb | now apply leb_refl].
      * split; [now left |]. split; [now apply leb_refl | now apply not_ltb_leb].
  - destruct (a <? b) eqn:Hlt.
    + split; [now right |]. split; [now apply ltb_leb | now apply leb_refl].
    + split; [now left |]. split; [now apply leb_refl | now apply not_ltb_leb].
Qed.

(** [Math.min] of two numbers is one of them and is bounded by both. *)
Lemma Math_min_spec (a b : float) :
  is_nan a = false -> is_nan b = false ->
  (Math.min a b = a \/ Math.min a b = b)
  /\ (Math.min a b <=? a) = true /\ (Math.min a b <=? b) = true.
Proof.
  intros Ha Hb. unfold Math.min. rewrite Ha, Hb. simpl.
  destruct (is_pos_zero a) eqn:Hza; simpl.
  - destruct (is_neg_zero b) eqn:Hzb.
    + split; [now right |]. split; [| now apply leb_refl].
      apply (zeros_leb b a true false);
        [now apply is_neg_zero_spec | now apply is_pos_zero_spec].
    + destruct (b <? a) eqn:Hlt.
      * split; [now right |]. split; [now apply ltb_leb | now apply leb_refl].
      * split; [now left |]. split; [now apply leb_refl | now apply not_ltb_leb].
  - destruct (b <? a) eqn:Hlt.
    + split; [now right |]. split; [now apply ltb_leb | now apply leb_refl].
    + split; [now left |]. split; [now apply leb_refl | now apply not_ltb_leb].
Qed.

Lemma Math_max_nan (a b : float) :
  is_nan a || is_nan b = true -> Math.max a b = nan.
Proof. intros H. unfold Math.max. rewrite H. reflexivity. Qed.

Lemma Math_min_nan (a b : float) :
  is_nan a || is_nan b = true -> Math.min a b = nan.
Proof. intros H. unfold Math.min. rewrite H. reflexivity. Qed.

Lemma Math_max_number (a b : float) :
  is_nan a = false -> is_nan b = false -> is_nan (Math.max a b) = false.
Proof.
  intros Ha Hb. destruct (Math_max_spec a b Ha Hb) as [[E|E] _]; now rewrite E.
Qed.

Lemma Math_min_number (a b : float) :
  is_nan a = false -> is_nan b = false -> is_nan (Math.min a b) = false.
Proof.
  intros Ha Hb. destruct (Math_min_spec a b Ha Hb) as [[E|E] _]; now rewrite E.
Qed.

End FloatOrder.

(* ================================================================== *)
(** ** Detection: how the capabilities depend on one another *)

Section DetectionChain.

Lemma leb_Math_max (c a b : float) :
  is_nan a = false -> is_nan b = false ->
  (c <=? Math.max a b) = (c <=? a) || (c <=? b).
Proof.
  intros Ha Hb.
  destruct (Math_max_spec a b Ha Hb) as (Hsel & Hla & Hlb).
  destruct (c <=? a) eqn:Eca; simpl.
  - apply (leb_trans c a _ Eca Hla).
  - destruct (c <=? b) eqn:Ecb.
    + apply (leb_trans c b _ Ecb Hlb).
    + destruct Hsel as [E | E]; rewrite E; assumption.
Qed.

End DetectionChain.

Lemma notch_capabilities_aux (rt : Runtime) :
  (Detection.hasDynamicIsland rt tt = true ->
   Detection.hasNotchOrDynamicIsland rt tt = true)
  /\ (Detection.hasNotchOrDynamicIsland rt tt = true ->
      Platform_OS rt = ios
      /\ Platform_isPad rt = false
      /\ Detection.getBottomInset rt tt = 34).
Proof.
  split.
  - rewrite hasDynamicIsland_eq, andb_true_iff. tauto.
  - intros Hn. pose proof Hn as Hraw.
    rewrite hasNotchOrDynamicIsland_height_only, !andb_true_iff, negb_true_iff in Hraw.
    destruct Hraw as [[Hios Hh] Hpad].
    unfold Detection.getBottomInset, Detection.hasHomeIndicator, Detection.hasFaceID.
    rewrite Hios, Hpad, Hn. simpl.
    unfold IS_IOS in Hios. destruct (Platform_OS rt); try discriminate.
    repeat split.
Qed.

(** X1.  A device with a Dynamic Island has the notch, and a device with
    the notch is a primary-OS phone with Face ID and a home indicator, a
    status bar of 47 and a bottom inset of 34. *)
Theorem notch_capabilities (rt : Runtime) :
  (Detection.hasDynamicIsland rt tt = true ->
   Detection.hasNotchOrDynamicIsland rt tt = true)
  /\ (Detection.hasNotchOrDynamicIsland rt tt = true ->
      Platform_OS rt = ios
      /\ Platform_isPad rt = false
      /\ Detection.hasFaceID rt tt = true
      /\ Detection.hasHomeIndicator rt tt = true
      /\ Detection.getStatusBarHeight rt tt = 47
      /\ Detection.getBottomInset rt tt = 34).
Proof.
  split.
  - rewrite hasDynamicIsland_eq, andb_true_iff. tauto.
  - intros Hn. pose proof Hn as Hraw.
    rewrite hasNotchOrDynamicIsland_height_only, !andb_true_iff, negb_true_iff in Hraw.
    destruct Hraw as [[Hios Hh] Hpad].
    unfold Detection.getBottomInset, Detection.getStatusBarHeight,
      Detection.hasHomeIndicator, Detection.hasFaceID.
    rewrite Hios, Hpad, Hn. simpl.
    unfold IS_IOS in Hios. destruct (Platform_OS rt); try discriminate.
    repeat split.
Qed.

Lemma notch_capabilities_witness :
  Detection.hasNotchOrDynamicIsland (phone ios 393 852) tt = true
  /\ Detection.getBottomInset (phone ios 393 852) tt = 34.
Proof.
  split.
  - apply (proj1 (notch_capabilities (phone ios 393 852))). reflexivity.
  - apply (proj2 (notch_capabilities (phone ios 393 852))). reflexivity.
Defined.

(** X2.  The safe area insets in terms of the raw metrics: left and right
    are 0; off the primary OS the top is 24 and the bottom 0; on a
    primary-OS tablet the top is 24 and the bottom is 34 exactly when the
    longer side is at least 1024; on a primary-OS phone the insets are 47
    and 34 when the height is at least 812, and 20 and 0 otherwise. *)
Theorem getSafeAreaInsets_by_metrics (rt : Runtime) :
  Detection.getSafeAreaInsets rt tt
  = match Platform_OS rt with
    | ios =>
        if Platform_isPad rt then
          {| Detection.top := 24;
             Detection.bottom :=
               if Math.max (WINDOW_WIDTH rt) (WINDOW_HEIGHT rt) >=? 1024
               then 34 else 0;
             Detection.left := 0; Detection.right := 0 |}
        else if WINDOW_HEIGHT rt >=? 812 then
          {| Detection.top := 47; Detection.bottom := 34;
             Detection.left := 0; Detection.right := 0 |}
        else
          {| Detection.top := 20; Detection.bottom := 0;
             Detection.left := 0; Detection.right := 0 |}
    | _ =>
        {| Detection.top := 24; Detection.bottom := 0;
           Detection.left := 0; Detection.right := 0 |}
    end.
Proof.
  unfold Detection.getSafeAreaInsets, Detection.getStatusBarHeight,
    Detection.getBottomInset, Detection.hasHomeIndicator, Detection.hasFaceID,
    Detection.hasNotchOrDynamicIsland, IS_IOS.
  destruct (Platform_OS rt); simpl; try reflexivity.
  destruct (Platform_isPad rt); simpl.
  - reflexivity.
  - rewrite andb_true_r. destruct (WINDOW_HEIGHT rt >=? 812); reflexivity.
Qed.

(** X3.  On a primary-OS tablet whose window sides are numbers, Face ID,
    and with it the home indicator and the bottom inset, is detected
    exactly when either side is at least 1024, so the answer is the same
    after a rotation. *)
Theorem tablet_faceID_either_side (rt : Runtime) :
  Platform_OS rt = ios -> Platform_isPad rt = true ->
  is_nan (WINDOW_WIDTH rt) = false -> is_nan (WINDOW_HEIGHT rt) = false ->
  Detection.hasFaceID rt tt
  = (WINDOW_WIDTH rt >=? 1024) || (WINDOW_HEIGHT rt >=? 1024)
  /\ Detection.hasFaceID (rotate rt) tt = Detection.hasFaceID rt tt
  /\ Detection.hasHomeIndicator (rotate rt) tt = Detection.hasHomeIndicator rt tt
  /\ Detection.getBottomInset (rotate rt) tt = Detection.getBottomInset rt tt.
Proof.
  intros Hos Hpad Hw Hh.
  assert (Hface : forall r, Platform_OS r = ios -> Platform_isPad r = true ->
            is_nan (WINDOW_WIDTH r) = false -> is_nan (WINDOW_HEIGHT r) = false ->
            Detection.hasFaceID r tt
            = (WINDOW_WIDTH r >=? 1024) || (WINDOW_HEIGHT r >=? 1024)).
  { intros r Ho Hp Hrw Hrh. unfold Detection.hasFaceID, IS_IOS, geb.
    rewrite Ho, Hp. simpl. now apply leb_Math_max. }
  assert (Hrot : Detection.hasFaceID (rotate rt) tt = Detection.hasFaceID rt tt).
  { rewrite (Hface rt Hos Hpad Hw Hh), (Hface (rotate rt) Hos Hpad Hh Hw).
    simpl. apply orb_comm. }
  split; [now apply Hface |]. split; [exact Hrot |].
  unfold Detection.getBottomInset, Detection.hasHomeIndicator.
  change (IS_IOS (rotate rt)) with (IS_IOS rt). rewrite Hrot. split; reflexivity.
Qed.

Lemma tablet_faceID_either_side_witness :
  Detection.hasFaceID
    {| Platform_OS := ios; Platform_isPad := true;
       WINDOW_WIDTH := 1366; WINDOW_HEIGHT := 1024;
       PIXEL_RATIO := 2; StatusBar_currentHeight := None |} tt
  = (1366 >=? 1024) || (1024 >=? 1024).
Proof.
  apply (proj1 (tablet_faceID_either_side
                  {| Platform_OS := ios; Platform_isPad := true;
                     WINDOW_WIDTH := 1366; WINDOW_HEIGHT := 1024;
                     PIXEL_RATIO := 2; StatusBar_currentHeight := None |}
                  eq_refl eq_refl eq_refl eq_refl)).
Defined.

(** X4.  [isIPhone12OrNewer()] answers [true] only on the primary OS, with
    a height of at least 812 and a shorter side of at least 375; on such a
    device that is not a tablet the notch is detected as well. *)
Theorem isIPhone12OrNewer_implies (rt : Runtime) :
  Detection.isIPhone12OrNewer rt tt = true ->
  Platform_OS rt = ios
  /\ (WINDOW_HEIGHT rt >=? 812) = true
  /\ (Math.min (WINDOW_WIDTH rt) (WINDOW_HEIGHT rt) <? 375) = false
  /\ (Platform_isPad rt = false -> Detection.hasNotchOrDynamicIsland rt tt = true).
Proof.
  unfold Detection.isIPhone12OrNewer, Detection.hasNotchOrDynamicIsland, IS_IOS.
  destruct (Platform_OS rt); simpl; try discriminate.
  destruct (Math.min (WINDOW_WIDTH rt) (WINDOW_HEIGHT rt) <? 375); try discriminate.
  rewrite andb_true_iff. intros [_ Hh]. rewrite Hh.
  repeat split. intros Hp. now rewrite Hp.
Qed.

Lemma isIPhone12OrNewer_implies_witness :
  Detection.hasNotchOrDynamicIsland iphone14 tt = true.
Proof.
  apply (proj2 (proj2 (proj2 (isIPhone12OrNewer_implies iphone14 eq_refl)))).
  reflexivity.
Defined.

(* ================================================================== *)
(** ** Navigation theme: platform values and tokens *)

Section NavigationTheme.

Lemma IS_IPHONE_X_OR_NEWER_rotate (rt : Runtime) :
  NavPlatform.IS_IPHONE_X_OR_NEWER (rotate rt) = NavPlatform.IS_IPHONE_X_OR_NEWER rt.
Proof.
  unfold NavPlatform.IS_IPHONE_X_OR_NEWER. simpl.
  change (IS_IOS (rotate rt)) with (IS_IOS rt).
  f_equal. apply orb_comm.
Qed.

Lemma nav_hasNotch_rotate (rt : Runtime) :
  NavPlatform.hasNotch (rotate rt) tt = NavPlatform.hasNotch rt tt.
Proof.
  unfold NavPlatform.hasNotch. rewrite IS_IPHONE_X_OR_NEWER_rotate. reflexivity.
Qed.

Lemma nav_select_rotate (rt : Runtime) (config : NavPlatform.Config) :
  NavPlatform.select (rotate rt) config = NavPlatform.select rt config.
Proof.
  unfold NavPlatform.select. rewrite nav_hasNotch_rotate. reflexivity.
Qed.

Lemma nav_select_two_keys (rt : Runtime) (i a : float) :
  NavPlatform.select rt (Tokens.ios_android i a)
  = match Platform_OS rt with
    | ios => Some i
    | android => Some a
    | other_os => if truthy a then Some a else Some i
    end.
Proof.
  unfold NavPlatform.select, Tokens.ios_android, NavPlatform.or_optional. simpl.
  rewrite andb_false_r.
  destruct (Platform_OS rt); reflexivity.
Qed.

End NavigationTheme.

(** X5.  Everything the navigation theme derives from the window is the
    same after a rotation of the device: its notch test, bottom space, tab
    bar, status bar and header heights, and the whole spacing token tree. *)
Theorem navigation_rotation_invariant (rt : Runtime) :
  NavPlatform.hasNotch (rotate rt) tt = NavPlatform.hasNotch rt tt
  /\ NavPlatform.hasHomeIndicator (rotate rt) tt = NavPlatform.hasHomeIndicator rt tt
  /\ NavPlatform.getBottomSpace (rotate rt) tt = NavPlatform.getBottomSpace rt tt
  /\ NavPlatform.getTabBarHeight (rotate rt) tt = NavPlatform.getTabBarHeight rt tt
  /\ (forall skipAndroid,
        NavPlatform.getStatusBarHeight (rotate rt) skipAndroid
        = NavPlatform.getStatusBarHeight rt skipAndroid)
  /\ NavPlatform.getHeaderHeight (rotate rt) tt = NavPlatform.getHeaderHeight rt tt
  /\ Tokens.navigationTokens (rotate rt) = Tokens.navigationTokens rt.
Proof.
  assert (Hhome : NavPlatform.hasHomeIndicator (rotate rt) tt
                  = NavPlatform.hasHomeIndicator rt tt)
    by apply IS_IPHONE_X_OR_NEWER_rotate.
  assert (Hspace : NavPlatform.getBottomSpace (rotate rt) tt
                   = NavPlatform.getBottomSpace rt tt).
  { unfold NavPlatform.getBottomSpace. now rewrite Hhome. }
  assert (Htab : NavPlatform.getTabBarHeight (rotate rt) tt
                 = NavPlatform.getTabBarHeight rt tt).
  { unfold NavPlatform.getTabBarHeight. now rewrite Hspace. }
  assert (Hstatus : forall skipAndroid,
            NavPlatform.getStatusBarHeight (rotate rt) skipAndroid
            = NavPlatform.getStatusBarHeight rt skipAndroid).
  { intros skipAndroid. unfold NavPlatform.getStatusBarHeight.
    now rewrite nav_hasNotch_rotate. }
  split; [apply nav_hasNotch_rotate |]. split; [exact Hhome |].
  split; [exact Hspace |]. split; [exact Htab |]. split; [exact Hstatus |].
  split.
  - unfold NavPlatform.getHeaderHeight. now rewrite Hstatus.
  - unfold Tokens.navigationTokens.
    rewrite !nav_select_rotate, Hstatus, Htab, Hspace. reflexivity.
Qed.

(** X6.  The header height is the status bar height plus the bar height,
    and the bar height is the token [spacing.header.height]: 44 on the
    primary OS and 56 elsewhere, so [getHeaderHeight()] is the sum of the
    two header tokens, 88 on a notched primary-OS phone and 64 on one
    without notch. *)
Theorem getHeaderHeight_sum_of_tokens (rt : Runtime) :
  Tokens.header_height (Tokens.header (Tokens.spacing (Tokens.navigationTokens rt)))
  = Some (match Platform_OS rt with ios => 44 | _ => 56 end)
  /\ NavPlatform.getHeaderHeight rt tt
     = Tokens.statusBarHeight (Tokens.header (Tokens.spacing (Tokens.navigationTokens rt)))
       + (match Platform_OS rt with ios => 44 | _ => 56 end)
  /\ (Platform_OS rt = ios ->
      NavPlatform.getHeaderHeight rt tt
      = if NavPlatform.hasNotch rt tt then 88 else 64).
Proof.
  split; [| split].
  - simpl. rewrite nav_select_two_keys. destruct (Platform_OS rt); reflexivity.
  - unfold NavPlatform.getHeaderHeight, IS_IOS. simpl.
    destruct (Platform_OS rt); reflexivity.
  - intros Hos. unfold NavPlatform.getHeaderHeight, NavPlatform.getStatusBarHeight, IS_IOS.
    rewrite Hos. simpl. destruct (NavPlatform.hasNotch rt tt); reflexivity.
Qed.

Lemma getHeaderHeight_sum_of_tokens_witness :
  NavPlatform.getHeaderHeight iphone14 tt
  = if NavPlatform.hasNotch iphone14 tt then 88 else 64.
Proof.
  apply (proj2 (proj2 (getHeaderHeight_sum_of_tokens iphone14))). reflexivity.
Defined.

(** X7.  On a platform that is neither the primary nor the secondary OS,
    the theme's [select] of a two-key config [{ios: i, android: a}] gives
    [a], unless [a] is 0 or [NaN], in which case it gives [i]; on the two
    known platforms it gives the platform's own value.  So the token
    [spacing.tabBar.iconMargin] ([{ios: 4, android: 0}]) is 4 on such a
    platform, while [spacing.header.elevation] ([{ios: 0, android: 4}]) is
    4 as well. *)
Theorem nav_select_other_platform (rt : Runtime) (i a : float) :
  NavPlatform.select rt (Tokens.ios_android i a)
  = match Platform_OS rt with
    | ios => Some i
    | android => Some a
    | other_os => if (a =? 0) || is_nan a then Some i else Some a
    end
  /\ (Platform_OS rt = other_os ->
      Tokens.iconMargin (Tokens.tabBar (Tokens.spacing (Tokens.navigationTokens rt)))
      = Some 4
      /\ Tokens.header_elevation
           (Tokens.header (Tokens.spacing (Tokens.navigationTokens rt)))
         = Some 4).
Proof.
  split.
  - rewrite nav_select_two_keys. unfold truthy, Truthy_number.
    destruct (Platform_OS rt); try reflexivity.
    destruct ((a =? 0) || is_nan a); reflexivity.
  - intros Hos. simpl. rewrite !nav_select_two_keys, Hos. split; reflexivity.
Qed.

Lemma nav_select_other_platform_witness :
  Tokens.iconMargin
    (Tokens.tabBar (Tokens.spacing (Tokens.navigationTokens (phone other_os 800 600))))
  = Some 4.
Proof.
  apply (proj1 (proj2 (nav_select_other_platform (phone other_os 800 600) 0 0)
                  eq_refl)).
Defined.

(** X8.  The [iosNotch] key of the theme's [select] wins on a notched
    primary-OS phone when its value is truthy; a value of 0 is ignored
    there, and the key is ignored on every device without the theme's
    notch and on every other OS. *)
Theorem nav_select_iosNotch (rt : Runtime) (config : NavPlatform.Config) (v : float) :
  NavPlatform.cfg_iosNotch config = Some v ->
  (Platform_OS rt = ios -> NavPlatform.hasNotch rt tt = true ->
   (v =? 0) = false -> is_nan v = false ->
   NavPlatform.select rt config = Some v)
  /\ (Platform_OS rt = ios -> (v =? 0) = true ->
      NavPlatform.select rt config = NavPlatform.cfg_ios config)
  /\ (Platform_OS rt = ios -> NavPlatform.hasNotch rt tt = false ->
      NavPlatform.select rt config = NavPlatform.cfg_ios config)
  /\ (Platform_OS rt = android ->
      NavPlatform.select rt config = NavPlatform.cfg_android config).
Proof.
  intros Hkey. unfold NavPlatform.select, IS_IOS. rewrite Hkey.
  unfold truthy, Truthy_optional, truthy, Truthy_number.
  repeat split.
  - intros Hos Hnotch H0 Hn. rewrite Hos, Hnotch, H0, Hn. reflexivity.
  - intros Hos H0. rewrite Hos, H0. simpl. now rewrite andb_false_r.
  - intros Hos Hnotch. rewrite Hos, Hnotch. reflexivity.
  - intros Hos. rewrite Hos. reflexivity.
Qed.

Lemma nav_select_iosNotch_witness :
  NavPlatform.select iphone14
    {| NavPlatform.cfg_ios := Some 20; NavPlatform.cfg_android := Some 24;
       NavPlatform.cfg_default := None; NavPlatform.cfg_iosNotch := Some 44 |}
  = Some 44
  /\ NavPlatform.select iphone14
       {| NavPlatform.cfg_ios := Some 20; NavPlatform.cfg_android := Some 24;
          NavPlatform.cfg_default := None; NavPlatform.cfg_iosNotch := Some 0 |}
     = Some 20.
Proof.
  split.
  - apply (proj1 (nav_select_iosNotch iphone14
             {| NavPlatform.cfg_ios := Some 20; NavPlatform.cfg_android := Some 24;
                NavPlatform.cfg_default := None; NavPlatform.cfg_iosNotch := Some 44 |}
             44 eq_refl)); reflexivity.
  - apply (proj1 (proj2 (nav_select_iosNotch iphone14
             {| NavPlatform.cfg_ios := Some 20; NavPlatform.cfg_android := Some 24;
                NavPlatform.cfg_default := None; NavPlatform.cfg_iosNotch := Some 0 |}
             0 eq_refl))); reflexivity.
Defined.

(** X9.  The detector's [select] returns the value under the running
    platform's key whenever that key is defined, falsy values included;
    otherwise the default; otherwise [null].  It never returns the value
    of the other platform's key. *)
Theorem detection_select_no_cross_platform (A : Type) (rt : Runtime)
    (options : PlatformSelect.Options A) :
  (forall v, Platform_OS rt = ios -> PlatformSelect.opt_ios options = Some v ->
             PlatformSelect.select rt options = PlatformSelect.Value v)
  /\ (forall v, Platform_OS rt = android ->
                PlatformSelect.opt_android options = Some v ->
                PlatformSelect.select rt options = PlatformSelect.Value v)
  /\ (Platform_OS rt = ios -> PlatformSelect.opt_ios options = None ->
      PlatformSelect.select rt options
      = match PlatformSelect.opt_default options with
        | Some d => PlatformSelect.Value d
        | None => PlatformSelect.Null
        end)
  /\ (Platform_OS rt = android -> PlatformSelect.opt_android options = None ->
      PlatformSelect.select rt options
      = match PlatformSelect.opt_default options with
        | Some d => PlatformSelect.Value d
        | None => PlatformSelect.Null
        end)
  /\ (Platform_OS rt = other_os ->
      PlatformSelect.select rt options
      = match PlatformSelect.opt_default options with
        | Some d => PlatformSelect.Value d
        | None => PlatformSelect.Null
        end).
Proof.
  unfold PlatformSelect.select, IS_IOS, IS_ANDROID.
  repeat split.
  - intros v Hos Hv. now rewrite Hos, Hv.
  - intros v Hos Hv. rewrite Hos, Hv. reflexivity.
  - intros Hos Hv. rewrite Hos, Hv. reflexivity.
  - intros Hos Hv. rewrite Hos, Hv. reflexivity.
  - intros Hos. rewrite Hos. destruct (PlatformSelect.opt_ios options); reflexivity.
Qed.

Lemma detection_select_no_cross_platform_witness :
  PlatformSelect.select iphone14
    {| PlatformSelect.opt_ios := Some 0; PlatformSelect.opt_android := Some 4;
       PlatformSelect.opt_default := Some 2 |}
  = PlatformSelect.Value 0
  /\ PlatformSelect.select iphone14
       {| PlatformSelect.opt_ios := None; PlatformSelect.opt_android := Some 4;
          PlatformSelect.opt_default := None |}
     = PlatformSelect.Null.
Proof.
  split.
  - apply (proj1 (detection_select_no_cross_platform float iphone14
             {| PlatformSelect.opt_ios := Some 0; PlatformSelect.opt_android := Some 4;
                PlatformSelect.opt_default := Some 2 |}) 0 eq_refl eq_refl).
  - apply (proj1 (proj2 (proj2 (detection_select_no_cross_platform float iphone14
             {| PlatformSelect.opt_ios := None; PlatformSelect.opt_android := Some 4;
                PlatformSelect.opt_default := None |}))) eq_refl eq_refl).
Defined.

(* ================================================================== *)
(** ** The two home indicator tests and the tab bar style *)

(** X10.  On a device that is not a tablet, a home indicator seen by the
    detector is seen by the navigation theme as well; the converse fails
    for a notched phone in landscape, and on a tablet the theme never
    sees one. *)
Theorem home_indicator_detector_vs_theme (rt : Runtime) :
  (Platform_isPad rt = false ->
   Detection.hasHomeIndicator rt tt = true ->
   NavPlatform.hasHomeIndicator rt tt = true)
  /\ (Platform_isPad rt = true -> NavPlatform.hasHomeIndicator rt tt = false)
  /\ NavPlatform.hasHomeIndicator iphone14_landscape tt = true
  /\ Detection.hasHomeIndicator iphone14_landscape tt = false.
Proof.
  split; [| split; [| split; reflexivity]].
  - intros Hpad.
    unfold Detection.hasHomeIndicator, Detection.hasFaceID,
      Detection.hasNotchOrDynamicIsland, NavPlatform.hasHomeIndicator,
      NavPlatform.IS_IPHONE_X_OR_NEWER.
    rewrite Hpad. destruct (IS_IOS rt); simpl; try discriminate.
    rewrite andb_true_r. intros H. now rewrite H.
  - intros Hpad. unfold NavPlatform.hasHomeIndicator, NavPlatform.IS_IPHONE_X_OR_NEWER.
    rewrite Hpad. simpl. now rewrite andb_false_r.
Qed.

Lemma home_indicator_detector_vs_theme_witness :
  NavPlatform.hasHomeIndicator iphone14 tt = true.
Proof.
  apply (proj1 (home_indicator_detector_vs_theme iphone14)); reflexivity.
Defined.

(** X11.  The tab bar style of [getTabNavigatorScreenOptions] adds the
    detector's bottom inset to the token [spacing.tabBar.height], which
    already contains the theme's bottom space.  Where the detector reports
    the notch the height is 49 + 34 + 34 = 117 with a bottom padding of 34;
    off the primary OS it is 56 with no padding. *)
Theorem tabBarStyle_height (engine : Engine) (hairlineWidth : float) (rt : Runtime) :
  (Detection.hasNotchOrDynamicIsland rt tt = true ->
   TabBarConfig.height
     (TabBarConfig.tabBarStyle
        (TabBarConfig.getTabNavigatorScreenOptions engine hairlineWidth rt tt)) = 117
   /\ TabBarConfig.paddingBottom
        (TabBarConfig.tabBarStyle
           (TabBarConfig.getTabNavigatorScreenOptions engine hairlineWidth rt tt)) = 34)
  /\ (Platform_OS rt <> ios ->
      TabBarConfig.height
        (TabBarConfig.tabBarStyle
           (TabBarConfig.getTabNavigatorScreenOptions engine hairlineWidth rt tt)) = 56
      /\ TabBarConfig.paddingBottom
           (TabBarConfig.tabBarStyle
              (TabBarConfig.getTabNavigatorScreenOptions engine hairlineWidth rt tt)) = 0).
Proof.
  split.
  - intros Hn.
    destruct (proj2 (notch_capabilities_aux rt) Hn) as (Hos & Hpad & Hinset).
    assert (Hhome : NavPlatform.hasHomeIndicator rt tt = true).
    { pose proof Hn as Hraw.
      rewrite hasNotchOrDynamicIsland_height_only, !andb_true_iff in Hraw.
      destruct Hraw as [[Hios Hh] Hp].
      unfold NavPlatform.hasHomeIndicator, NavPlatform.IS_IPHONE_X_OR_NEWER.
      now rewrite Hios, Hp, Hh. }
    simpl. unfold NavPlatform.getTabBarHeight, NavPlatform.getBottomSpace, IS_IOS.
    rewrite Hhome, Hinset, Hos. split; reflexivity.
  - intros Hos. simpl.
    unfold NavPlatform.getTabBarHeight, NavPlatform.getBottomSpace,
      NavPlatform.hasHomeIndicator, NavPlatform.IS_IPHONE_X_OR_NEWER,
      Detection.getBottomInset, IS_IOS.
    destruct (Platform_OS rt); try (exfalso; now apply Hos); split; reflexivity.
Qed.

Lemma tabBarStyle_height_witness :
  TabBarConfig.height
    (TabBarConfig.tabBarStyle
       (TabBarConfig.getTabNavigatorScreenOptions SampleEngine.engine 0.5 iphone14 tt))
  = 117
  /\ TabBarConfig.height
       (TabBarConfig.tabBarStyle
          (TabBarConfig.getTabNavigatorScreenOptions SampleEngine.engine 0.5 pixel7 tt))
     = 56.
Proof.
  split.
  - apply (proj1 (tabBarStyle_height SampleEngine.engine 0.5 iphone14)). reflexivity.
  - apply (proj2 (tabBarStyle_height SampleEngine.engine 0.5 pixel7)). discriminate.
Defined.

(* ================================================================== *)
(** ** Tab bar visibility *)

Section Visibility.

Import TabBarConfig.

Lemma includes_In (l : list string) (x : string) :
  includes l x = true <-> In x l.
Proof.
  unfold includes. rewrite existsb_exists. split.
  - intros (y & Hy & E). apply String.eqb_eq in E. now subst.
  - intros H. exists x. split; [assumption | apply String.eqb_refl].
Qed.

Lemma element_None (l : list string) (i : option nat) :
  element l i = None
  <-> match i with Some n => (List.length l <= n)%nat | None => True end.
Proof.
  destruct i as [n |]; simpl.
  - apply nth_error_None.
  - tauto.
Qed.

End Visibility.

(** X12.  [getTabBarVisibility] throws exactly when the route is
    [undefined], or when the route has a state with a [routes] array and the
    state's [index] is missing or not below the length of that array, an
    empty array included. *)
Theorem getTabBarVisibility_throws (route : option TabBarConfig.Route) :
  TabBarConfig.getTabBarVisibility route = TabBarConfig.TypeError
  <-> route = None
      \/ exists r st rs,
           route = Some r
           /\ TabBarConfig.state r = Some st
           /\ TabBarConfig.routes st = Some rs
           /\ match TabBarConfig.index st with
              | Some n => (List.length rs <= n)%nat
              | None => True
              end.
Proof.
  unfold TabBarConfig.getTabBarVisibility.
  destruct route as [r |]; [| split; [now left | reflexivity]].
  split.
  - intros H. right.
    destruct (TabBarConfig.state r) as [st |] eqn:Hst.
    + destruct (TabBarConfig.routes st) as [rs |] eqn:Hrs.
      * destruct (TabBarConfig.element rs (TabBarConfig.index st)) as [c |] eqn:Hel.
        -- destruct (TabBarConfig.includes _ c); [discriminate |].
           destruct (TabBarConfig.includes _ _); discriminate.
        -- exists r, st, rs. repeat split; trivial. now apply element_None.
      * destruct (TabBarConfig.includes _ _); discriminate.
    + destruct (TabBarConfig.includes _ _); discriminate.
  - intros [H | (r' & st & rs & Hr & Hst & Hrs & Hidx)]; [discriminate |].
    injection Hr as <-. rewrite Hst, Hrs.
    apply element_None in Hidx. now rewrite Hidx.
Qed.

(** X13.  When [getTabBarVisibility] returns, it hides the tab bar
    ([{display: 'none'}]) exactly when the route's own name or the name of
    the current nested route is one of CourseSelector, Tracker and
    ScorecardScreen; otherwise it returns [undefined]. *)
Theorem getTabBarVisibility_hidden (r : TabBarConfig.Route)
    (result : option TabBarConfig.VisibilityStyle) :
  TabBarConfig.getTabBarVisibility (Some r) = TabBarConfig.Return result ->
  (result = Some {| TabBarConfig.display := "none" |}
   <-> In (TabBarConfig.name r) TabBarConfig.hiddenRoutes
       \/ exists st rs current,
            TabBarConfig.state r = Some st
            /\ TabBarConfig.routes st = Some rs
            /\ TabBarConfig.element rs (TabBarConfig.index st) = Some current
            /\ In current TabBarConfig.hiddenRoutes)
  /\ (result = None \/ result = Some {| TabBarConfig.display := "none" |}).
Proof.
  unfold TabBarConfig.getTabBarVisibility.
  assert (Hown : forall res,
    (if TabBarConfig.includes TabBarConfig.hiddenRoutes (TabBarConfig.name r)
     then TabBarConfig.Return (Some {| TabBarConfig.display := "none" |})
     else TabBarConfig.Return None) = TabBarConfig.Return res ->
    (res = Some {| TabBarConfig.display := "none" |}
     <-> In (TabBarConfig.name r) TabBarConfig.hiddenRoutes)
    /\ (res = None \/ res = Some {| TabBarConfig.display := "none" |})).
  { intros res. rewrite <- includes_In.
    destruct (TabBarConfig.includes _ _); intros E; injection E as <-;
      split; try tauto; split; congruence. }
  destruct (TabBarConfig.state r) as [st |] eqn:Hst.
  - destruct (TabBarConfig.routes st) as [rs |] eqn:Hrs.
    + destruct (TabBarConfig.element rs (TabBarConfig.index st)) as [c |] eqn:Hel;
        [| discriminate].
      destruct (TabBarConfig.includes TabBarConfig.hiddenRoutes c) eqn:Hc.
      * intros E. injection E as <-. split; [| now right].
        split; [| reflexivity]. intros _. right.
        exists st, rs, c. repeat split; trivial. now apply includes_In.
      * intros E. destruct (Hown _ E) as [Hiff Hcases]. split; [| exact Hcases].
        rewrite Hiff. split; [tauto |].
        intros [H | (st' & rs' & c' & Hst' & Hrs' & Hel' & Hin)]; [exact H |].
        injection Hst' as <-. rewrite Hrs in Hrs'. injection Hrs' as <-.
        rewrite Hel in Hel'. injection Hel' as <-.
        apply includes_In in Hin. congruence.
    + intros E. destruct (Hown _ E) as [Hiff Hcases]. split; [| exact Hcases].
      rewrite Hiff. split; [tauto |].
      intros [H | (st' & rs' & c' & Hst' & Hrs' & _)]; [exact H |].
      injection Hst' as <-. congruence.
  - intros E. destruct (Hown _ E) as [Hiff Hcases]. split; [| exact Hcases].
    rewrite Hiff. split; [tauto |].
    intros [H | (st' & rs' & c' & Hst' & _)]; [exact H | discriminate].
Qed.

Lemma getTabBarVisibility_hidden_witness :
  In "Rounds" TabBarConfig.hiddenRoutes
  \/ exists st rs current,
       Some {| TabBarConfig.routes := Some ["RoundsScreen"; "ScorecardScreen"];
               TabBarConfig.index := Some 1%nat |} = Some st
       /\ TabBarConfig.routes st = Some rs
       /\ TabBarConfig.element rs (TabBarConfig.index st) = Some current
       /\ In current TabBarConfig.hiddenRoutes.
Proof.
  refine (proj1 (proj1 (getTabBarVisibility_hidden
                  {| TabBarConfig.name := "Rounds";
                     TabBarConfig.state :=
                       Some {| TabBarConfig.routes :=
                                 Some ["RoundsScreen"; "ScorecardScreen"];
                               TabBarConfig.index := Some 1%nat |} |}
                  (Some {| TabBarConfig.display := "none" |}) eq_refl)) eq_refl).
Defined.

(* ================================================================== *)
(** ** Shadows off the primary OS and at the named levels *)

(** X14.  Off the primary OS no shadow is ever computed: for every
    elevation the colour is black and the offset, opacity and radius are
    zero; on the secondary OS the [elevation] property is the elevation
    clamped to [[0, 24]], on any other platform it is [undefined]. *)
Theorem getShadowParams_off_ios (engine : Engine) (rt : Runtime) (e : float) :
  Platform_OS rt <> ios ->
  VisualProperties.getShadowParams engine rt (Some e)
  = zeroShadow (match Platform_OS rt with
                | android => Number (VisualProperties.normalizedElevation e)
                | _ => Undefined
                end).
Proof.
  intros Hos. unfold VisualProperties.getShadowParams, default_param, zeroShadow.
  cbv zeta. simpl. unfold truthy, Truthy_bool, IS_IOS, IS_ANDROID.
  destruct (Platform_OS rt); try (exfalso; now apply Hos);
    destruct (VisualProperties.normalizedElevation e =? 0); reflexivity.
Qed.

Lemma getShadowParams_off_ios_witness :
  VisualProperties.getShadowParams SampleEngine.engine pixel7 (Some 30)
  = zeroShadow (Number (VisualProperties.normalizedElevation 30)).
Proof.
  apply (getShadowParams_off_ios SampleEngine.engine pixel7 30). discriminate.
Defined.

(** X15.  On the primary OS every named elevation level of the module
    (none, low, medium, high, overlay) gives an opacity that is not
    negative and not above 0.18, whatever the engine. *)
Theorem elevationLevels_opacity (engine : Engine) (rt : Runtime) :
  Platform_OS rt = ios ->
  forall level e, In (level, e) elevationLevels ->
    (0 <=? VisualProperties.shadowOpacity
             (VisualProperties.getShadowParams engine rt (Some e))) = true
    /\ (VisualProperties.shadowOpacity
          (VisualProperties.getShadowParams engine rt (Some e)) <=? 0.18) = true.
Proof.
  intros Hos level e Hin.
  unfold VisualProperties.getShadowParams, default_param. cbv zeta.
  simpl Detection.isIOS. unfold truthy at 2, Truthy_bool, IS_IOS. rewrite Hos.
  simpl in Hin.
  repeat (destruct Hin as [Hin | Hin]; [injection Hin as _ <-; split; reflexivity |]).
  contradiction.
Qed.

Lemma elevationLevels_opacity_witness :
  (0 <=? VisualProperties.shadowOpacity
           (VisualProperties.getShadowParams SampleEngine.engine iphone14 (Some 16)))
  = true.
Proof.
  apply (proj1 (elevationLevels_opacity SampleEngine.engine iphone14 eq_refl
                  "overlay" 16 (or_intror (or_intror (or_intror (or_intror (or_introl eq_refl))))))).
Defined.

(* ================================================================== *)
(** ** Blur *)

Section Blur.


Lemma getMaxBlurIntensity_cases (rt : Runtime) :
  In (Detection.getMaxBlurIntensity rt tt) [100; 80; 60; 40; 20].
Proof.
  unfold Detection.getMaxBlurIntensity.
  destruct (IS_IOS rt); [now left |].
  destruct (IS_ANDROID rt); [| simpl; tauto].
  destruct (PIXEL_RATIO rt >=? 3); [simpl; tauto |].
  destruct (PIXEL_RATIO rt >=? 2.5); [simpl; tauto |].
  destruct (PIXEL_RATIO rt >=? 2); simpl; tauto.
Qed.

End Blur.

(** X16.  The maximum blur intensity never decreases when the pixel ratio
    of a device grows, and it is always one of 100, 80, 60, 40 and 20; on
    the secondary OS a pixel ratio that is not a number gives 20. *)
Theorem getMaxBlurIntensity_monotone (rt : Runtime) (p1 p2 : float) :
  (p1 <=? p2) = true ->
  (Detection.getMaxBlurIntensity (with_pixel_ratio rt p1) tt
   <=? Detection.getMaxBlurIntensity (with_pixel_ratio rt p2) tt) = true
  /\ In (Detection.getMaxBlurIntensity rt tt) [100; 80; 60; 40; 20]
  /\ (Platform_OS rt = android -> is_nan (PIXEL_RATIO rt) = true ->
      Detection.getMaxBlurIntensity rt tt = 20).
Proof.
  intros Hle. split; [| split; [apply getMaxBlurIntensity_cases |]].
  - unfold Detection.getMaxBlurIntensity, geb. simpl.
    change (IS_IOS (with_pixel_ratio rt p1)) with (IS_IOS rt).
    change (IS_IOS (with_pixel_ratio rt p2)) with (IS_IOS rt).
    change (IS_ANDROID (with_pixel_ratio rt p1)) with (IS_ANDROID rt).
    change (IS_ANDROID (with_pixel_ratio rt p2)) with (IS_ANDROID rt).
    destruct (IS_IOS rt); [reflexivity |].
    destruct (IS_ANDROID rt); [| reflexivity].
    destruct (3 <=? p1) eqn:A1.
    { rewrite (leb_trans _ _ _ A1 Hle). reflexivity. }
    destruct (2.5 <=? p1) eqn:B1.
    { rewrite (leb_trans _ _ _ B1 Hle). destruct (3 <=? p2); reflexivity. }
    destruct (2 <=? p1) eqn:C1.
    { rewrite (leb_trans _ _ _ C1 Hle).
      destruct (3 <=? p2); [reflexivity |]. destruct (2.5 <=? p2); reflexivity. }
    destruct (3 <=? p2); [reflexivity |]. destruct (2.5 <=? p2); [reflexivity |].
    destruct (2 <=? p2); reflexivity.
  - intros Hos Hn. unfold Detection.getMaxBlurIntensity, IS_IOS, IS_ANDROID, geb.
    rewrite Hos, !(nan_leb_r _ _ Hn). reflexivity.
Qed.

Lemma getMaxBlurIntensity_monotone_witness :
  (Detection.getMaxBlurIntensity (with_pixel_ratio pixel7 2) tt
   <=? Detection.getMaxBlurIntensity (with_pixel_ratio pixel7 2.75) tt) = true.
Proof.
  apply (proj1 (getMaxBlurIntensity_monotone pixel7 2 2.75 eq_refl)).
Defined.



(* ================================================================== *)
(** ** Typography: weights and size bands *)

Section TypographyFacts.

Import VisualProperties.

Lemma string_geb_first_char (c : ascii) (rest : string) :
  ((54 < N_of_ascii c)%N -> string_geb (String c rest) "600" = true)
  /\ ((N_of_ascii c < 54)%N -> string_geb (String c rest) "600" = false).
Proof.
  unfold string_geb, String.ltb. simpl String.compare. unfold Ascii.compare.
  change (N_of_ascii "6") with 54%N.
  split; intros H.
  - apply N.compare_gt_iff in H. now rewrite H.
  - apply N.compare_lt_iff in H. now rewrite H.
Qed.

(** The weight token of a weight that the map does not hold. *)
Lemma numericWeight_unmapped (weight : string) :
  weightMap weight = None ->
  or_value (weightMap weight ||| weight) "400"
  = match weight with EmptyString => "400" | _ => weight end.
Proof.
  intros H. rewrite H. destruct weight; reflexivity.
Qed.

End TypographyFacts.



(** X19.  For a passed-through weight the 0.1 of extra letter spacing is
    decided by its first character alone when that is not ['6']: above
    ['6'] (as in ['900'] or ['heavy']) the letter spacing is that of the
    normal weight plus 0.1, below ['6'] (as in ['1000']) it is that of the
    normal weight. *)
Theorem letterSpacing_first_character (rt : Runtime) (fontSize : float)
    (c : ascii) (rest : string) :
  VisualProperties.weightMap (String c rest) = None ->
  ((54 < N_of_ascii c)%N ->
   VisualProperties.letterSpacing
     (VisualProperties.getOpticalTypography rt fontSize (Some (String c rest)))
   = VisualProperties.letterSpacing
       (VisualProperties.getOpticalTypography rt fontSize (Some "normal")) + 0.1)
  /\ ((N_of_ascii c < 54)%N ->
      VisualProperties.letterSpacing
        (VisualProperties.getOpticalTypography rt fontSize (Some (String c rest)))
      = VisualProperties.letterSpacing
          (VisualProperties.getOpticalTypography rt fontSize (Some "normal"))).
Proof.
  intros Hmap.
  unfold VisualProperties.getOpticalTypography, default_param.
  cbn [VisualProperties.letterSpacing].
  rewrite (numericWeight_unmapped _ Hmap).
  change (or_value (VisualProperties.weightMap "normal" ||| "normal") "400") with "400".
  change (string_geb "400" "600") with false. cbv iota.
  destruct (string_geb_first_char c rest) as [Habove Hbelow].
  split; intros H; [rewrite (Habove H) | rewrite (Hbelow H)]; reflexivity.
Qed.

Lemma letterSpacing_first_character_witness :
  VisualProperties.letterSpacing
    (VisualProperties.getOpticalTypography iphone14 12 (Some "1000"))
  = VisualProperties.letterSpacing
      (VisualProperties.getOpticalTypography iphone14 12 (Some "normal"))
  /\ VisualProperties.letterSpacing
       (VisualProperties.getOpticalTypography iphone14 12 (Some "900"))
     = VisualProperties.letterSpacing
         (VisualProperties.getOpticalTypography iphone14 12 (Some "normal")) + 0.1.
Proof.
  split.
  - apply (proj2 (letterSpacing_first_character iphone14 12 "1"%char "000" eq_refl)).
    reflexivity.
  - apply (proj1 (letterSpacing_first_character iphone14 12 "9"%char "00" eq_refl)).
    reflexivity.
Defined.

(** X20.  For a fixed weight the letter spacing never grows with the font
    size: a size that is at least another gets a letter spacing that is at
    most the other's.  The line height has no such property: the
    multiplier drops at each band boundary, so a larger size can get a
    smaller line height, as 20 (24) against 19.9 (25). *)
Theorem letterSpacing_antitone (rt : Runtime) (weight : option string)
    (size1 size2 : float) :
  ((size1 <=? size2) = true ->
   (VisualProperties.letterSpacing
      (VisualProperties.getOpticalTypography rt size2 weight)
    <=? VisualProperties.letterSpacing
          (VisualProperties.getOpticalTypography rt size1 weight)) = true)
  /\ exists smaller larger : float,
       (smaller <=? larger) = true
       /\ (VisualProperties.lineHeight
             (VisualProperties.getOpticalTypography rt larger weight)
           <? VisualProperties.lineHeight
                (VisualProperties.getOpticalTypography rt smaller weight)) = true.
Proof.
  split; [| exists 19.9, 20; split; reflexivity].
  intros Hle.
  unfold VisualProperties.getOpticalTypography.
  cbn [VisualProperties.letterSpacing]. cbv zeta.
  destruct (string_geb _ "600").
  - destruct (size2 <? 14) eqn:A2.
    { rewrite (leb_ltb_trans _ _ _ Hle A2). reflexivity. }
    destruct (size2 <? 20) eqn:B2.
    { rewrite (leb_ltb_trans _ _ _ Hle B2). destruct (size1 <? 14); reflexivity. }
    destruct (size2 <? 34) eqn:C2.
    { rewrite (leb_ltb_trans _ _ _ Hle C2).
      destruct (size1 <? 14); [reflexivity |]. destruct (size1 <? 20); reflexivity. }
    destruct (size1 <? 14); [reflexivity |]. destruct (size1 <? 20); [reflexivity |].
    destruct (size1 <? 34); reflexivity.
  - destruct (size2 <? 14) eqn:A2.
    { rewrite (leb_ltb_trans _ _ _ Hle A2). reflexivity. }
    destruct (size2 <? 20) eqn:B2.
    { rewrite (leb_ltb_trans _ _ _ Hle B2). destruct (size1 <? 14); reflexivity. }
    destruct (size2 <? 34) eqn:C2.
    { rewrite (leb_ltb_trans _ _ _ Hle C2).
      destruct (size1 <? 14); [reflexivity |]. destruct (size1 <? 20); reflexivity. }
    destruct (size1 <? 14); [reflexivity |]. destruct (size1 <? 20); [reflexivity |].
    destruct (size1 <? 34); reflexivity.
Qed.

Lemma letterSpacing_antitone_witness :
  (VisualProperties.letterSpacing
     (VisualProperties.getOpticalTypography iphone14 17 (Some "bold"))
   <=? VisualProperties.letterSpacing
         (VisualProperties.getOpticalTypography iphone14 12 (Some "bold"))) = true.
Proof.
  apply (proj1 (letterSpacing_antitone iphone14 (Some "bold") 12 17) eq_refl).
Defined.

(* ================================================================== *)
(** ** Corner radius: bounds and fallback *)

Section RadiusBounds.

Import VisualProperties.

(** [Math.max(lo, Math.min(x, hi))], when it is a number, is at least
    [lo], and it is either [lo] itself or at most [hi]. *)
Lemma max_min_bounds (lo x hi : float) :
  is_nan (Math.max lo (Math.min x hi)) = false ->
  (lo <=? Math.max lo (Math.min x hi)) = true
  /\ (Math.max lo (Math.min x hi) = lo
      \/ (Math.max lo (Math.min x hi) <=? hi) = true).
Proof.
  intros Hnum.
  assert (Hlo : is_nan lo = false).
  { destruct (is_nan lo) eqn:E; trivial.
    rewrite Math_max_nan in Hnum; [discriminate Hnum | now rewrite E]. }
  assert (Hin : is_nan (Math.min x hi) = false).
  { destruct (is_nan (Math.min x hi)) eqn:E; trivial.
    rewrite Math_max_nan in Hnum; [discriminate Hnum | rewrite E; apply orb_true_r]. }
  assert (Hx : is_nan x = false).
  { destruct (is_nan x) eqn:E; trivial.
    rewrite Math_min_nan in Hin; [discriminate Hin | now rewrite E]. }
  assert (Hhi : is_nan hi = false).
  { destruct (is_nan hi) eqn:E; trivial.
    rewrite Math_min_nan in Hin; [discriminate Hin | rewrite E; apply orb_true_r]. }
  destruct (Math_max_spec lo _ Hlo Hin) as (Hsel & Hge & _).
  destruct (Math_min_spec x hi Hx Hhi) as (_ & _ & Hle).
  split; [exact Hge |].
  destruct Hsel as [E | E]; [now left | right; now rewrite E].
Qed.

Lemma getCornerRadius_scaled (engine : Engine) (rt : Runtime) (size : SizeSpec)
    (variant : string) (baseRadius scaleFactor : float) :
  strategy variant = Scaled baseRadius scaleFactor ->
  (baseSize size =? 0) = false ->
  getCornerRadius engine rt size (Some variant)
  = Math.max (baseRadius / 2)
      (Math.min
         (baseRadius
          + Math_log10 engine (Math.max 100 (baseSize size)) * baseSize size
            * platformAdjusted rt scaleFactor * 0.05)
         (baseSize size * 0.25)).
Proof.
  intros Hs Hb. unfold getCornerRadius, default_param. cbv zeta.
  rewrite Hb, Hs. reflexivity.
Qed.


Lemma or_else_number (x : option float) : is_nan (x ||| 0) = false.
Proof.
  destruct x as [a |]; [| reflexivity].
  unfold or_else. destruct (truthy a) eqn:E; [| reflexivity].
  unfold truthy, Truthy_number in E.
  apply negb_true_iff, orb_false_iff in E. tauto.
Qed.





End RadiusBounds.

(** X21.  For a variant other than pill and a smaller side that is not
    zero, a corner radius that is a number is at least half the variant's
    base radius, and it is either exactly that half or at most a quarter
    of the smaller side. *)
Theorem getCornerRadius_bounds (engine : Engine) (rt : Runtime)
    (size : VisualProperties.SizeSpec) (variant : string)
    (baseRadius scaleFactor : float) :
  VisualProperties.strategy variant = VisualProperties.Scaled baseRadius scaleFactor ->
  (VisualProperties.baseSize size =? 0) = false ->
  is_nan (VisualProperties.getCornerRadius engine rt size (Some variant)) = false ->
  (baseRadius / 2 <=? VisualProperties.getCornerRadius engine rt size (Some variant))
  = true
  /\ (VisualProperties.getCornerRadius engine rt size (Some variant) = baseRadius / 2
      \/ (VisualProperties.getCornerRadius engine rt size (Some variant)
          <=? VisualProperties.baseSize size * 0.25) = true).
Proof.
  intros Hs Hb. rewrite (getCornerRadius_scaled engine rt size variant _ _ Hs Hb).
  apply max_min_bounds.
Qed.

Lemma getCornerRadius_bounds_witness :
  (10 / 2 <=? VisualProperties.getCornerRadius SampleEngine.engine iphone14 square400
                (Some "standard")) = true.
Proof.
  apply (proj1 (getCornerRadius_bounds SampleEngine.engine iphone14 square400
                  "standard" 10 0.1 eq_refl eq_refl eq_refl)).
Defined.

(** X22.  When a quarter of the smaller side is less than half the base
    radius (a standard container below 20, a small one below 8, a large
    one below 64), a corner radius that is a number is exactly half the
    base radius, and so exceeds the quarter of the smaller side. *)
Theorem getCornerRadius_small_container (engine : Engine) (rt : Runtime)
    (size : VisualProperties.SizeSpec) (variant : string)
    (baseRadius scaleFactor : float) :
  VisualProperties.strategy variant = VisualProperties.Scaled baseRadius scaleFactor ->
  (VisualProperties.baseSize size =? 0) = false ->
  (VisualProperties.baseSize size * 0.25 <? baseRadius / 2) = true ->
  is_nan (VisualProperties.getCornerRadius engine rt size (Some variant)) = false ->
  VisualProperties.getCornerRadius engine rt size (Some variant) = baseRadius / 2
  /\ (VisualProperties.baseSize size * 0.25
      <? VisualProperties.getCornerRadius engine rt size (Some variant)) = true.
Proof.
  intros Hs Hb Hsmall Hnum.
  rewrite (getCornerRadius_scaled engine rt size variant _ _ Hs Hb) in *.
  destruct (max_min_bounds _ _ _ Hnum) as [Hge [E | Hle]].
  - rewrite E. split; [reflexivity | exact Hsmall].
  - exfalso.
    pose proof (leb_trans _ _ _ Hge Hle) as Hcontra.
    apply leb_not_ltb in Hcontra. congruence.
Qed.

Lemma getCornerRadius_small_container_witness :
  VisualProperties.getCornerRadius SampleEngine.engine pixel7
    {| VisualProperties.width := Some 10; VisualProperties.height := Some 44 |}
    (Some "standard")
  = 10 / 2.
Proof.
  apply (proj1 (getCornerRadius_small_container SampleEngine.engine pixel7
                  {| VisualProperties.width := Some 10;
                     VisualProperties.height := Some 44 |}
                  "standard" 10 0.1 eq_refl eq_refl eq_refl eq_refl)).
Defined.



(* ================================================================== *)
(** ** Hexadecimal colours: range, value and letter case *)

Section HexFacts.

Import VisualProperties.

Lemma hex_digit_bound (c : ascii) (d : N) : hex_digit c = Some d -> (d <= 15)%N.
Proof.
  unfold hex_digit.
  destruct ((48 <=? N_of_ascii c)%N && (N_of_ascii c <=? 57)%N) eqn:E1.
  { intros H. injection H as <-.
    apply andb_true_iff in E1. destruct E1 as [_ E]. apply N.leb_le in E. lia. }
  destruct ((97 <=? N_of_ascii c)%N && (N_of_ascii c <=? 102)%N) eqn:E2.
  { intros H. injection H as <-.
    apply andb_true_iff in E2. destruct E2 as [_ E]. apply N.leb_le in E. lia. }
  destruct ((65 <=? N_of_ascii c)%N && (N_of_ascii c <=? 70)%N) eqn:E3.
  { intros H. injection H as <-.
    apply andb_true_iff in E3. destruct E3 as [_ E]. apply N.leb_le in E. lia. }
  discriminate.
Qed.

Lemma digit_value_bound (c : ascii) : (digit_value c <= 15)%N.
Proof.
  unfold digit_value. destruct (hex_digit c) as [d |] eqn:E.
  - now apply (hex_digit_bound c).
  - lia.
Qed.

Lemma parseInt16_pair (c1 c2 : ascii) :
  is_hex c1 = true -> is_hex c2 = true ->
  parseInt16 (String c1 (String c2 "")) = (16 * digit_value c1 + digit_value c2)%N.
Proof.
  unfold parseInt16, is_hex, digit_value.
  cbn [fold_left list_ascii_of_string].
  destruct (hex_digit c1) as [d1 |]; [| discriminate]. intros _.
  destruct (hex_digit c2) as [d2 |]; [| discriminate]. intros _. lia.
Qed.

Lemma fullRegex_exec_six (c1 c2 c3 c4 c5 c6 : ascii) :
  is_hex c1 = true -> is_hex c2 = true -> is_hex c3 = true ->
  is_hex c4 = true -> is_hex c5 = true -> is_hex c6 = true ->
  forall hash,
    fullRegex_exec (hex6 hash c1 c2 c3 c4 c5 c6)
    = Some (String c1 (String c2 ""), String c3 (String c4 ""), String c5 (String c6 "")).
Proof.
  intros H1 H2 H3 H4 H5 H6 hash. unfold fullRegex_exec.
  replace (skip_hash (hex6 hash c1 c2 c3 c4 c5 c6))
    with (String c1 (String c2 (String c3 (String c4 (String c5 (String c6 "")))))).
  - now rewrite H1, H2, H3, H4, H5, H6.
  - destruct hash; [reflexivity |]. symmetry. apply (skip_hash_hex c1 _ H1).
Qed.

Lemma shorthandRegex_six (c1 c2 c3 c4 c5 c6 : ascii) (hash : bool) :
  is_hex c1 = true ->
  shorthandRegex (hex6 hash c1 c2 c3 c4 c5 c6) = None.
Proof.
  intros H1. unfold shorthandRegex.
  replace (skip_hash (hex6 hash c1 c2 c3 c4 c5 c6))
    with (String c1 (String c2 (String c3 (String c4 (String c5 (String c6 "")))))).
  - reflexivity.
  - destruct hash; [reflexivity |]. symmetry. apply (skip_hash_hex c1 _ H1).
Qed.

(** Every capture of the six-digit pattern is a pair of hexadecimal
    digits. *)
Lemma fullRegex_exec_pairs (s : string) (r1 g1 b1 : string) :
  fullRegex_exec s = Some (r1, g1, b1) ->
  exists c1 c2 c3 c4 c5 c6,
    r1 = String c1 (String c2 "") /\ g1 = String c3 (String c4 "")
    /\ b1 = String c5 (String c6 "")
    /\ is_hex c1 = true /\ is_hex c2 = true /\ is_hex c3 = true
    /\ is_hex c4 = true /\ is_hex c5 = true /\ is_hex c6 = true.
Proof.
  unfold fullRegex_exec.
  destruct (skip_hash s) as [| c1 [| c2 [| c3 [| c4 [| c5 [| c6 [|]]]]]]];
    try discriminate.
  destruct (is_hex c1) eqn:H1, (is_hex c2) eqn:H2, (is_hex c3) eqn:H3,
           (is_hex c4) eqn:H4, (is_hex c5) eqn:H5, (is_hex c6) eqn:H6;
    simpl; try discriminate.
  intros E. injection E as <- <- <-.
  exists c1, c2, c3, c4, c5, c6. repeat split; trivial.
Qed.

Lemma parseInt16_pair_bound (c1 c2 : ascii) :
  is_hex c1 = true -> is_hex c2 = true ->
  (parseInt16 (String c1 (String c2 "")) <= 255)%N.
Proof.
  intros H H'. rewrite (parseInt16_pair c1 c2 H H').
  pose proof (digit_value_bound c1). pose proof (digit_value_bound c2). lia.
Qed.

(** Letter case. *)
Lemma hex_digit_to_upper (c : ascii) : hex_digit (to_upper c) = hex_digit c.
Proof. destruct c as [[] [] [] [] [] [] [] []]; reflexivity. Qed.

Lemma is_hex_to_upper (c : ascii) : is_hex (to_upper c) = is_hex c.
Proof. unfold is_hex. now rewrite hex_digit_to_upper. Qed.

Lemma skip_hash_to_upper (s : string) :
  skip_hash (map_string to_upper s) = map_string to_upper (skip_hash s).
Proof.
  destruct s as [| c rest]; [reflexivity |].
  destruct c as [[] [] [] [] [] [] [] []]; reflexivity.
Qed.

Lemma parseInt16_to_upper (s : string) :
  parseInt16 (map_string to_upper s) = parseInt16 s.
Proof.
  unfold parseInt16. generalize 0%N.
  induction s as [| c rest IH]; intros acc; [reflexivity |].
  simpl. rewrite hex_digit_to_upper. apply IH.
Qed.

Lemma hexToRgb_to_upper (hex : string) :
  hexToRgb (map_string to_upper hex) = hexToRgb hex.
Proof.
  unfold hexToRgb.
  assert (Hfull : forall s,
    match fullRegex_exec (map_string to_upper s) with
    | Some (r1, g1, b1) =>
        {| r := parseInt16 r1; g := parseInt16 g1; b := parseInt16 b1 |}
    | None => {| r := 255; g := 255; b := 255 |}
    end
    = match fullRegex_exec s with
      | Some (r1, g1, b1) =>
          {| r := parseInt16 r1; g := parseInt16 g1; b := parseInt16 b1 |}
      | None => {| r := 255; g := 255; b := 255 |}
      end).
  { intros s. unfold fullRegex_exec. rewrite skip_hash_to_upper.
    destruct (skip_hash s) as [| c1 [| c2 [| c3 [| c4 [| c5 [| c6 [|]]]]]]];
      try reflexivity.
    cbn [map_string]. rewrite !is_hex_to_upper.
    destruct (is_hex c1 && is_hex c2 && is_hex c3 && is_hex c4 && is_hex c5 && is_hex c6);
      [| reflexivity].
    change (String (to_upper c1) (String (to_upper c2) ""))
      with (map_string to_upper (String c1 (String c2 ""))).
    change (String (to_upper c3) (String (to_upper c4) ""))
      with (map_string to_upper (String c3 (String c4 ""))).
    change (String (to_upper c5) (String (to_upper c6) ""))
      with (map_string to_upper (String c5 (String c6 ""))).
    now rewrite !parseInt16_to_upper. }
  unfold shorthandRegex at 1. rewrite skip_hash_to_upper.
  unfold shorthandRegex.
  destruct (skip_hash hex) as [| c1 [| c2 [| c3 [|]]]]; try apply Hfull.

  cbn [map_string]. rewrite !is_hex_to_upper.
  destruct (is_hex c1 && is_hex c2 && is_hex c3); [| apply Hfull].
  apply (Hfull (String c1 (String c1 (String c2 (String c2 (String c3 (String c3 ""))))))).
Qed.

End HexFacts.

(** X24.  Whatever string is parsed, each of the three channels of
    [hexToRgb] lies between 0 and 255. *)
Theorem hexToRgb_channel_range (hex : string) :
  (VisualProperties.r (VisualProperties.hexToRgb hex) <= 255)%N
  /\ (VisualProperties.g (VisualProperties.hexToRgb hex) <= 255)%N
  /\ (VisualProperties.b (VisualProperties.hexToRgb hex) <= 255)%N.
Proof.
  unfold VisualProperties.hexToRgb.
  destruct (VisualProperties.fullRegex_exec _) as [[[r1 g1] b1] |] eqn:E.
  - apply fullRegex_exec_pairs in E.
    destruct E as (c1 & c2 & c3 & c4 & c5 & c6 & -> & -> & ->
                   & H1 & H2 & H3 & H4 & H5 & H6).
    simpl. repeat split; now apply parseInt16_pair_bound.
  - simpl. repeat split; lia.
Qed.

(** X25.  A six-digit colour, with or without the ['#'], is read by
    position: each channel is sixteen times the value of its first digit
    plus the value of its second. *)
Theorem hexToRgb_six_digits (hash : bool) (c1 c2 c3 c4 c5 c6 : ascii) :
  VisualProperties.is_hex c1 = true -> VisualProperties.is_hex c2 = true ->
  VisualProperties.is_hex c3 = true -> VisualProperties.is_hex c4 = true ->
  VisualProperties.is_hex c5 = true -> VisualProperties.is_hex c6 = true ->
  VisualProperties.hexToRgb (hex6 hash c1 c2 c3 c4 c5 c6)
  = {| VisualProperties.r := 16 * digit_value c1 + digit_value c2;
       VisualProperties.g := 16 * digit_value c3 + digit_value c4;
       VisualProperties.b := 16 * digit_value c5 + digit_value c6 |}.
Proof.
  intros H1 H2 H3 H4 H5 H6. unfold VisualProperties.hexToRgb.
  rewrite (shorthandRegex_six c1 c2 c3 c4 c5 c6 hash H1).
  rewrite (fullRegex_exec_six c1 c2 c3 c4 c5 c6 H1 H2 H3 H4 H5 H6 hash).
  now rewrite !parseInt16_pair.
Qed.

Lemma hexToRgb_six_digits_witness :
  VisualProperties.hexToRgb "#0A1b2C"
  = {| VisualProperties.r := 16 * digit_value "0" + digit_value "A";
       VisualProperties.g := 16 * digit_value "1" + digit_value "b";
       VisualProperties.b := 16 * digit_value "2" + digit_value "C" |}.
Proof.
  apply (hexToRgb_six_digits true "0" "A" "1" "b" "2" "C"); reflexivity.
Defined.

(** X26.  Parsing ignores letter case: a colour string and the same
    string in upper case give the same channels, and so the same backdrop
    colour. *)
Theorem hexToRgb_case_insensitive (engine : Engine) (hex : string)
    (opacity : option float) :
  VisualProperties.hexToRgb (map_string to_upper hex) = VisualProperties.hexToRgb hex
  /\ VisualProperties.getBackdropColor engine (Some (map_string to_upper hex)) opacity
     = VisualProperties.getBackdropColor engine (Some hex) opacity.
Proof.
  split; [apply hexToRgb_to_upper |].
  unfold VisualProperties.getBackdropColor, default_param. cbv zeta.
  now rewrite hexToRgb_to_upper.
Qed.

(* ================================================================== *)
(** ** The theme's status bar height off the primary OS *)

(** X27.  Off the primary OS the theme's status bar height is the height
    the host reports, with 0 in place of a missing, zero or [NaN] report,
    and it is 0 whenever [skipAndroid] is set; so it is always a number.
    On the primary OS [skipAndroid] changes nothing. *)
Theorem nav_getStatusBarHeight_host (rt : Runtime) (skipAndroid : option bool) :
  (Platform_OS rt <> ios ->
   NavPlatform.getStatusBarHeight rt skipAndroid
   = (if default_param false skipAndroid then 0
      else match StatusBar_currentHeight rt with
           | Some h => if (h =? 0) || is_nan h then 0 else h
           | None => 0
           end)
   /\ is_nan (NavPlatform.getStatusBarHeight rt skipAndroid) = false)
  /\ (Platform_OS rt = ios ->
      NavPlatform.getStatusBarHeight rt skipAndroid
      = NavPlatform.getStatusBarHeight rt None).
Proof.
  unfold NavPlatform.getStatusBarHeight, IS_IOS. split.
  - intros Hos. destruct (Platform_OS rt); try (exfalso; now apply Hos).
    + split.
      * destruct (default_param false skipAndroid); [reflexivity |].
        destruct (StatusBar_currentHeight rt) as [h |]; [| reflexivity].
        unfold or_else, truthy, Truthy_number.
        destruct ((h =? 0) || is_nan h); reflexivity.
      * destruct (default_param false skipAndroid); [reflexivity |].
        apply or_else_number.
    + split.
      * destruct (default_param false skipAndroid); [reflexivity |].
        destruct (StatusBar_currentHeight rt) as [h |]; [| reflexivity].
        unfold or_else, truthy, Truthy_number.
        destruct ((h =? 0) || is_nan h); reflexivity.
      * destruct (default_param false skipAndroid); [reflexivity |].
        apply or_else_number.
  - intros Hos. rewrite Hos. reflexivity.
Qed.

Lemma nav_getStatusBarHeight_host_witness :
  is_nan (NavPlatform.getStatusBarHeight
            {| Platform_OS := android; Platform_isPad := false;
               WINDOW_WIDTH := 412; WINDOW_HEIGHT := 915; PIXEL_RATIO := 2.6;
               StatusBar_currentHeight := Some nan |} None) = false.
Proof.
  apply (proj1 (nav_getStatusBarHeight_host
                  {| Platform_OS := android; Platform_isPad := false;
                     WINDOW_WIDTH := 412; WINDOW_HEIGHT := 915; PIXEL_RATIO := 2.6;
                     StatusBar_currentHeight := Some nan |} None)).
  discriminate.
Defined.
